(** * MaziShark API: a shallow embedding of [api/index.py]

    The handlers of the FastAPI application ([analyze], [predict], [series])
    are translated into Rocq functions over an explicit description of what
    they read from the outside: the environment variable, the file system and
    the dataset that [xr.open_dataset] yields.  Python exceptions are values
    of an error monad; [try ... except Exception] is [try_except].  A
    handler is followed up to the value it returns or the exception it
    raises; FastAPI then turns that value into JSON, which fails, with a
    500, exactly when the value holds NaN or an infinity: [http_status]
    gives the status code of the answer.

    Grid cells and coordinates are IEEE-754 binary64 numbers, modelled with
    the executable specification [spec_float] of the standard library
    (precision 53, [emax] 1024), so every definition below computes.  The
    grid is two-dimensional, rows indexed by latitude.

    The library functions that the handlers call ([np.argmin], [np.clip],
    [np.nanmin], [np.nanmax], [np.nanmean], [np.linspace], [np.histogram],
    [datetime.strptime]) are written out after their documented behaviour
    in the modules [np] and [strptime]; sums are taken in the order in
    which numpy adds the cells of a C-contiguous binary64 array. *)

From Stdlib Require Import ZArith List String Ascii Bool Lia DecimalString.
From Stdlib Require Import Floats.SpecFloat.
From Stdlib Require Import Permutation.
Import ListNotations.

(* ===================================================================== *)
(** * Binary64 numbers *)
(* ===================================================================== *)

Module F64.

Definition prec : Z := 53.
Definition emax : Z := 1024.

Definition float := spec_float.

Definition add : float -> float -> float := SFadd prec emax.
Definition sub : float -> float -> float := SFsub prec emax.
Definition mul : float -> float -> float := SFmul prec emax.
Definition div : float -> float -> float := SFdiv prec emax.
Definition abs : float -> float := SFabs.

(** Python's [a < b], [a <= b] and [a >= b] on floats. *)
Definition ltb : float -> float -> bool := SFltb.
Definition leb : float -> float -> bool := SFleb.
Definition geb (a b : float) : bool := leb b a.

Definition nan : float := S754_nan.
Definition zero : float := S754_zero false.
Definition neg_zero : float := S754_zero true.

(** The float nearest to the integer [z] (exact below [2^53]). *)
Definition of_Z (z : Z) : float := binary_normalize prec emax z 0 false.

(** The float nearest to [m * 2^e]. *)
Definition of_bits (m e : Z) : float := binary_normalize prec emax m e false.

Definition one : float := Eval cbv in of_Z 1.
Definition half : float := Eval cbv in of_bits 1 (-1).

(** [np.isnan] and [np.isfinite] on one element. *)
Definition isnan (x : float) : bool :=
  match x with S754_nan => true | _ => false end.

Definition isfinite (x : float) : bool :=
  match x with
  | S754_zero _ | S754_finite _ _ _ => true
  | S754_infinity _ | S754_nan => false
  end.

End F64.

Abbreviation float := F64.float.

(** ** The order on binary64 numbers

    [SFcompare] orders the numbers that are not NaN: first by class
    (negative infinity, negative, zero, positive, positive infinity), then
    by exponent and mantissa.  [rank] makes that explicit as a triple
    compared lexicographically. *)

Definition rank (x : float) : option (Z * Z * Z) :=
  match x with
  | S754_nan => None
  | S754_infinity true => Some (-2, 0, 0)%Z
  | S754_infinity false => Some (2, 0, 0)%Z
  | S754_zero _ => Some (0, 0, 0)%Z
  | S754_finite true m e => Some (-1, - e, - Z.pos m)%Z
  | S754_finite false m e => Some (1, e, Z.pos m)%Z
  end.

Definition lex_le (a b : Z * Z * Z) : Prop :=
  let '(a1, a2, a3) := a in
  let '(b1, b2, b3) := b in
  (a1 < b1 \/ (a1 = b1 /\ (a2 < b2 \/ (a2 = b2 /\ a3 <= b3))))%Z.

Definition lex_lt (a b : Z * Z * Z) : Prop :=
  let '(a1, a2, a3) := a in
  let '(b1, b2, b3) := b in
  (a1 < b1 \/ (a1 = b1 /\ (a2 < b2 \/ (a2 = b2 /\ a3 < b3))))%Z.

(* ===================================================================== *)
(** * Python values, exceptions and the error monad *)
(* ===================================================================== *)

Local Open Scope string_scope.

(** The exceptions that the handlers raise or catch.  All of them are
    subclasses of Python's [Exception], [HTTPException] included. *)
Inductive exn : Type :=
| HTTPException (status_code : Z) (detail : string)
| FileNotFoundError (msg : string)
| KeyError (msg : string)
| ValueError (msg : string)
| IndexError (msg : string)
| OSError (msg : string).

Inductive result (A : Type) : Type :=
| Ok (a : A)
| Raise (e : exn).

Arguments Ok {A} a.
Arguments Raise {A} e.

Definition bind {A B : Type} (c : result A) (k : A -> result B) : result B :=
  match c with
  | Ok a => k a
  | Raise e => Raise e
  end.

Notation "x <- c ;; k" := (bind c (fun x => k))
  (at level 61, c at next level, right associativity).

(** [try: body  except Exception as e: handler e]. *)
Definition try_except {A : Type} (body : result A) (handler : exn -> result A)
  : result A :=
  match body with
  | Ok a => Ok a
  | Raise e => handler e
  end.

Definition str_of_Z (z : Z) : string := NilZero.string_of_int (Z.to_int z).

Definition dquote : string := String (ascii_of_nat 34) EmptyString.

(** [str(e)], as the f-strings of the handlers print an exception:
    Starlette prints an [HTTPException] as its status code and detail;
    [KeyError] prints the representation of its argument (here between
    double quotes, the messages of this program containing apostrophes). *)
Definition py_str (e : exn) : string :=
  match e with
  | HTTPException c d => str_of_Z c ++ ": " ++ d
  | KeyError m => dquote ++ m ++ dquote
  | FileNotFoundError m | ValueError m | IndexError m | OSError m => m
  end.

(** The values that the handlers put in their answers. *)
#[local] Unset Elimination Schemes.
Inductive pyval : Type :=
| PNone
| PFloat (x : float)
| PInt (n : Z)
| PStr (s : string)
| PList (l : list pyval)
| PDict (d : list (string * pyval)).
#[local] Set Elimination Schemes.

(** What a handler returns: a value that FastAPI encodes into the body of
    a 200 answer, or an explicit [JSONResponse]. *)
Inductive reply : Type :=
| Body (v : pyval)
| JSONResponse (status_code : Z) (content : pyval).

(** [d[k]] on a dictionary given as its items in insertion order. *)
Fixpoint dict_get (k : string) (d : list (string * pyval)) : option pyval :=
  match d with
  | [] => None
  | (k', v) :: d' => if String.eqb k k' then Some v else dict_get k d'
  end.

Definition field (k : string) (r : reply) : option pyval :=
  match r with
  | Body (PDict d) | JSONResponse _ (PDict d) => dict_get k d
  | _ => None
  end.

(** What [json.dumps(..., allow_nan=False)] accepts: a value that holds
    neither NaN nor an infinity. *)
Fixpoint json_compliant (v : pyval) : bool :=
  match v with
  | PNone | PInt _ | PStr _ => true
  | PFloat x => F64.isfinite x
  | PList l => forallb json_compliant l
  | PDict d => forallb (fun kv => json_compliant (snd kv)) d
  end.

(** The status code of the HTTP answer.  FastAPI encodes what the handler
    returns as JSON with [allow_nan=False]: a body that holds NaN or an
    infinity raises [ValueError] there, which is a 500 like any exception
    that is not an [HTTPException]; a raised [HTTPException] is answered
    with its own status code. *)
Definition http_status (r : result reply) : Z :=
  match r with
  | Ok (Body v) => if json_compliant v then 200 else 500
  | Ok (JSONResponse c v) => if json_compliant v then c else 500
  | Raise (HTTPException c _) => c
  | Raise _ => 500
  end.

(* ===================================================================== *)
(** * The dataset and where it is found *)
(* ===================================================================== *)

(** A two-dimensional array of shape [(length nd_rows, nd_ncols)]. *)
Record ndarray2 : Type := {
  nd_ncols : nat;
  nd_rows : list (list float)
}.



(** What [xr.open_dataset] yields, as far as the program looks at it:
    the variable [H_index] and the coordinates [lat] and [lon], each
    possibly absent. *)
Record xr_Dataset : Type := {
  var_H_index : option ndarray2;
  coord_lat : option (list float);
  coord_lon : option (list float)
}.

(** A dataset that passed the checks of [load_h_dataset]:
    [ds["H_index"].values], [ds["lat"].values] and [ds["lon"].values]. *)
Record Dataset : Type := {
  H_index : ndarray2;
  lat : list float;
  lon : list float
}.

(** What the program reads from its surroundings. *)
Record World : Type := {
  getenv : string -> option string;
  path_exists : string -> bool;
  path_abspath : string -> string;
  path_join : list string -> string;
  getcwd : string;
  dirname_file : string;                 (* os.path.dirname(__file__) *)
  open_dataset : string -> result xr_Dataset
}.

Definition DATA_FILENAME : string := "habitat_index_H.nc".

Definition candidates (w : World) : list string :=
  [ path_abspath w DATA_FILENAME;
    path_abspath w (path_join w [getcwd w; DATA_FILENAME]);
    path_abspath w (path_join w [dirname_file w; ".."; DATA_FILENAME]);
    path_abspath w (path_join w [dirname_file w; DATA_FILENAME]);
    path_abspath w (path_join w [dirname_file w; ".."; "data"; DATA_FILENAME]);
    path_abspath w (path_join w ["data"; DATA_FILENAME]) ].

(** Truth value of an optional string: [None] and the empty string are
    false. *)
Definition truthy (o : option string) : bool :=
  match o with
  | Some s => negb (String.eqb s "")
  | None => false
  end.

Definition find_data_file (w : World) : option string :=
  let override := getenv w "MAZI_DATA_PATH" in
  match override with
  | Some p =>
      if truthy override && path_exists w p then Some (path_abspath w p)
      else find (path_exists w) (candidates w)
  | None => find (path_exists w) (candidates w)
  end.

Definition load_h_dataset (w : World) (path : string) : result Dataset :=
  if negb (path_exists w path) then
    Raise (FileNotFoundError ("Fichier introuvable: " ++ path))
  else
    ds <- open_dataset w path ;;
    match var_H_index ds with
    | None => Raise (KeyError "Variable 'H_index' absente du NetCDF")
    | Some H =>
        match coord_lat ds, coord_lon ds with
        | Some la, Some lo => Ok {| H_index := H; lat := la; lon := lo |}
        | _, _ => Raise (KeyError "Coordonnées 'lat'/'lon' absentes du NetCDF")
        end
    end.

(* ===================================================================== *)
(** * The numpy operations the handlers call *)
(* ===================================================================== *)

Module np.

Abbreviation isnan := F64.isnan.
Abbreviation isfinite := F64.isfinite.

(** [a.flatten()]: the cells in row-major order. *)
Definition flatten (a : ndarray2) : list float := List.concat (nd_rows a).

(** ** [argmin]

    The scan of numpy's [argmin] for floats: the running minimum is
    replaced only by an element that is not [>=] it, so the first of
    several equal minima is kept; a NaN ends the scan and is the answer. *)
Fixpoint argmin_loop (mp : float) (min_ind i : nat) (ip : list float) : nat :=
  match ip with
  | [] => min_ind
  | x :: rest =>
      if negb (F64.geb x mp) then
        if isnan x then i else argmin_loop x i (S i) rest
      else argmin_loop mp min_ind (S i) rest
  end.

Definition argmin (a : list float) : result nat :=
  match a with
  | [] => Raise (ValueError "attempt to get argmin of an empty sequence")
  | x :: rest => Ok (if isnan x then O else argmin_loop x 0 1 rest)
  end.

(** [np.clip(x, lo, hi)] is [minimum(maximum(x, lo), hi)]. *)
Definition clip (x lo hi : Z) : Z := Z.min (Z.max x lo) hi.

(** ** [nanmin], [nanmax]: reductions with [fmin] and [fmax], which
    return the other operand when one is NaN. *)
Definition fmin (x y : float) : float :=
  if F64.leb x y || isnan y then x else y.

Definition fmax (x y : float) : float :=
  if F64.geb x y || isnan y then x else y.

Definition reduce (name : string) (f : float -> float -> float)
  (a : list float) : result float :=
  match a with
  | [] => Raise (ValueError ("zero-size array to reduction operation "
                             ++ name ++ " which has no identity"))
  | x :: rest => Ok (fold_left f rest x)
  end.

Definition nanmin (a : ndarray2) : result float := reduce "fmin" fmin (flatten a).
Definition nanmax (a : ndarray2) : result float := reduce "fmax" fmax (flatten a).

(** ** [np.sum]: the reduction with [add].

    Over cells that lie next to each other in memory (a whole array, or a
    row) numpy adds pairwise: fewer than 8 cells are added in index order
    starting from -0.0; up to 128 cells are added into 8 running sums, one
    per position modulo 8, which are combined as
    [((r0+r1)+(r2+r3))+((r4+r5)+(r6+r7))] before what is left over is
    added in order; more than 128 cells are cut in two at a multiple of 8
    near the middle and the sums of the two parts added. *)
Definition small_sum (a : list float) : float :=
  fold_left F64.add a F64.neg_zero.

Fixpoint block_loop (r0 r1 r2 r3 r4 r5 r6 r7 : float) (a : list float)
  : float :=
  match a with
  | x0 :: x1 :: x2 :: x3 :: x4 :: x5 :: x6 :: x7 :: rest =>
      block_loop (F64.add r0 x0) (F64.add r1 x1) (F64.add r2 x2)
                 (F64.add r3 x3) (F64.add r4 x4) (F64.add r5 x5)
                 (F64.add r6 x6) (F64.add r7 x7) rest
  | _ =>
      fold_left F64.add a
        (F64.add (F64.add (F64.add r0 r1) (F64.add r2 r3))
                 (F64.add (F64.add r4 r5) (F64.add r6 r7)))
  end.

Definition block_sum (a : list float) : float :=
  match a with
  | x0 :: x1 :: x2 :: x3 :: x4 :: x5 :: x6 :: x7 :: rest =>
      block_loop x0 x1 x2 x3 x4 x5 x6 x7 rest
  | _ => small_sum a
  end.

(** The recursion on the two halves, with [fuel] bounding its depth; the
    length of the array is fuel enough ([pairwise_sum_fuel_enough]). *)
Fixpoint pairwise_sum_fuel (fuel : nat) (a : list float) : float :=
  let n := List.length a in
  if (n <? 8)%nat then small_sum a
  else if (n <=? 128)%nat then block_sum a
  else
    match fuel with
    | O => small_sum a
    | S fuel' =>
        let n2 := (n / 2 - (n / 2) mod 8)%nat in
        F64.add (pairwise_sum_fuel fuel' (firstn n2 a))
                (pairwise_sum_fuel fuel' (skipn n2 a))
    end.

Definition pairwise_sum (a : list float) : float :=
  pairwise_sum_fuel (List.length a) a.

(** The sum of a run of adjacent cells, added to the initial value of the
    reduction, -0.0, which changes no sum. *)
Definition sum (a : list float) : float :=
  F64.add F64.neg_zero (pairwise_sum a).

(** The sum of cells that lie one row apart, as in a reduction along the
    first axis of a grid with several columns: the rows are added one
    after the other to the initial value. *)
Definition sum_strided (a : list float) : float :=
  fold_left F64.add a F64.neg_zero.

(** ** [nanmean]: NaN cells are replaced by zero and added up with the
    others; the total is divided by the number of cells that are not
    NaN. *)

Definition replace_nan (a : list float) : list float :=
  map (fun x => if isnan x then F64.zero else x) a.

Definition count_not_nan (a : list float) : nat :=
  List.length (filter (fun x => negb (isnan x)) a).

Definition nanmean (a : list float) : float :=
  F64.div (sum (replace_nan a)) (F64.of_Z (Z.of_nat (count_not_nan a))).

Definition column (j : nat) (a : ndarray2) : list float :=
  map (fun r => nth j r F64.nan) (nd_rows a).

(** [np.nanmean(a, axis=1)] and [np.nanmean(a, axis=0)]. *)
Definition nanmean_axis1 (a : ndarray2) : list float :=
  map nanmean (nd_rows a).

Definition nanmean_strided (a : list float) : float :=
  F64.div (sum_strided (replace_nan a))
          (F64.of_Z (Z.of_nat (count_not_nan a))).

(** Along the first axis the cells of a column lie one row apart, unless
    the grid has a single column, which is one run of adjacent cells. *)
Definition nanmean_axis0 (a : ndarray2) : list float :=
  map (fun j => if (nd_ncols a =? 1)%nat then nanmean (column j a)
                else nanmean_strided (column j a))
      (seq 0 (nd_ncols a)).

(** ** [a[i, j]], with Python's negative indices. *)
Definition norm_index (i : Z) (n : nat) : option nat :=
  if (0 <=? i)%Z && (i <? Z.of_nat n)%Z then Some (Z.to_nat i)
  else if (- Z.of_nat n <=? i)%Z && (i <? 0)%Z then Some (Z.to_nat (Z.of_nat n + i))
  else None.

Definition getitem2 (a : ndarray2) (i j : Z) : result float :=
  match norm_index i (List.length (nd_rows a)), norm_index j (nd_ncols a) with
  | Some i', Some j' =>
      match nth_error (nd_rows a) i' with
      | Some r =>
          match nth_error r j' with
          | Some x => Ok x
          | None => Raise (IndexError "index out of bounds")
          end
      | None => Raise (IndexError "index out of bounds")
      end
  | _, _ => Raise (IndexError "index out of bounds")
  end.

(** ** [np.linspace(start, stop, num)] with its end point. *)
Definition linspace (start stop : float) (num : nat) : list float :=
  let div := (Z.of_nat num - 1)%Z in
  let delta := F64.sub stop start in
  let y := map (fun k => F64.of_Z (Z.of_nat k)) (seq 0 num) in
  let y :=
    if (0 <? div)%Z then
      let step := F64.div delta (F64.of_Z div) in
      if SFeqb step F64.zero
      then map (fun v => F64.mul (F64.div v (F64.of_Z div)) delta) y
      else map (fun v => F64.mul v step) y
    else map (fun v => F64.mul v delta) y in
  let y := map (fun v => F64.add v start) y in
  if (1 <? num)%nat then (removelast y ++ [stop])%list else y.

(** ** [np.histogram(a, bins, range)] for a number of equal bins.

    The edges are [linspace first last (bins + 1)].  The values outside
    [[first, last]] are dropped; bin [k] counts the values [v] with
    [edges[k] <= v < edges[k+1]], the last bin also taking
    [v = edges[bins]]. *)
Definition in_range (first_edge last_edge v : float) : bool :=
  F64.geb v first_edge && F64.leb v last_edge.

Definition in_bin (edges : list float) (bins k : nat) (v : float) : bool :=
  F64.leb (nth k edges F64.nan) v
  && (if (S k =? bins)%nat then F64.leb v (nth (S k) edges F64.nan)
      else F64.ltb v (nth (S k) edges F64.nan)).

Definition histogram (a : list float) (bins : nat) (range : float * float)
  : list Z * list float :=
  let '(first_edge, last_edge) := range in
  let edges := linspace first_edge last_edge (S bins) in
  let kept := filter (in_range first_edge last_edge) a in
  (map (fun k => Z.of_nat (List.length (filter (in_bin edges bins k) kept)))
       (seq 0 bins),
   edges).

(** ** [a.min()] and [a.max()]: reductions with [minimum] and [maximum],
    which keep a NaN once they meet one. *)
Definition minimum (x y : float) : float :=
  if F64.leb x y || isnan x then x else y.

Definition maximum (x y : float) : float :=
  if F64.geb x y || isnan x then x else y.

Definition amin (a : list float) : result float := reduce "minimum" minimum a.
Definition amax (a : list float) : result float := reduce "maximum" maximum a.

End np.

(* ===================================================================== *)
(** * [datetime.strptime(date, "%Y-%m-%d")] *)
(* ===================================================================== *)

(** The format compiles to the regular expression
    [(\d\d\d\d)-(1[0-2]|0[1-9]|[1-9])-(3[0-1]|[1-2]\d|0[1-9]|[1-9]| [1-9])],
    matched at the start of the string with alternatives tried in order;
    what is left after the match is an error, and so is a day that the
    month does not have.  Digits are the ASCII digits. *)
Module strptime.

Definition is_digit (c : ascii) : bool :=
  (48 <=? nat_of_ascii c)%nat && (nat_of_ascii c <=? 57)%nat.

Definition digit (c : ascii) : Z := Z.of_nat (nat_of_ascii c - 48).

Definition between (lo hi : nat) (c : ascii) : bool :=
  (lo <=? nat_of_ascii c)%nat && (nat_of_ascii c <=? hi)%nat.

(** One alternative of two characters, or of one. *)
Definition two (p1 p2 : ascii -> bool) (s : list ascii)
  : list (Z * list ascii) :=
  match s with
  | c1 :: c2 :: rest =>
      if p1 c1 && p2 c2 then [((10 * digit c1 + digit c2)%Z, rest)] else []
  | _ => []
  end.

Definition one (p : ascii -> bool) (s : list ascii) : list (Z * list ascii) :=
  match s with
  | c :: rest => if p c then [(digit c, rest)] else []
  | _ => []
  end.

Definition space_digit (s : list ascii) : list (Z * list ascii) :=
  match s with
  | sp :: c :: rest =>
      if Ascii.eqb sp " " && between 49 57 c then [(digit c, rest)] else []
  | _ => []
  end.

(** [%m] and [%d]: every way to match, in the order the alternatives are
    tried. *)
Definition month (s : list ascii) : list (Z * list ascii) :=
  (two (between 49 49) (between 48 50) s
   ++ two (between 48 48) (between 49 57) s
   ++ one (between 49 57) s)%list.

Definition day (s : list ascii) : list (Z * list ascii) :=
  (two (between 51 51) (between 48 49) s
   ++ two (between 49 50) is_digit s
   ++ two (between 48 48) (between 49 57) s
   ++ one (between 49 57) s
   ++ space_digit s)%list.

(** The first way to match the month for which the rest of the
    expression matches too. *)
Fixpoint after_month (y : Z) (ms : list (Z * list ascii))
  : option (Z * Z * Z * list ascii) :=
  match ms with
  | [] => None
  | (m, s) :: ms' =>
      match s with
      | dash :: s' =>
          if Ascii.eqb dash "-" then
            match day s' with
            | (d, rest) :: _ => Some (y, m, d, rest)
            | [] => after_month y ms'
            end
          else after_month y ms'
      | [] => after_month y ms'
      end
  end.

Definition regex_match (s : list ascii) : option (Z * Z * Z * list ascii) :=
  match s with
  | y1 :: y2 :: y3 :: y4 :: dash :: s' =>
      if is_digit y1 && is_digit y2 && is_digit y3 && is_digit y4
         && Ascii.eqb dash "-"
      then after_month
             (1000 * digit y1 + 100 * digit y2 + 10 * digit y3 + digit y4)%Z
             (month s')
      else None
  | _ => None
  end.

Definition is_leap (y : Z) : bool :=
  ((y mod 4 =? 0) && (negb (y mod 100 =? 0) || (y mod 400 =? 0)))%Z.

Definition days_in_month (y m : Z) : Z :=
  if (m =? 2)%Z then (if is_leap y then 29 else 28)%Z
  else if ((m =? 4) || (m =? 6) || (m =? 9) || (m =? 11))%Z then 30%Z
  else 31%Z.

(** The date [(year, month, day)], or the [ValueError]. *)
Definition parse (date : string) : result (Z * Z * Z) :=
  match regex_match (list_ascii_of_string date) with
  | None =>
      Raise (ValueError ("time data " ++ date
                         ++ " does not match format %Y-%m-%d"))
  | Some (y, m, d, rest) =>
      match rest with
      | _ :: _ =>
          Raise (ValueError ("unconverted data remains: "
                             ++ string_of_list_ascii rest))
      | [] =>
          if (y <? 1)%Z then
            Raise (ValueError ("year " ++ str_of_Z y ++ " is out of range"))
          else if (days_in_month y m <? d)%Z then
            Raise (ValueError "day is out of range for month")
          else Ok (y, m, d)
      end
  end.

End strptime.

(* ===================================================================== *)
(** * The handlers *)
(* ===================================================================== *)

(** [d[k] = v]. *)
Fixpoint dict_set (k : string) (v : pyval) (d : list (string * pyval))
  : list (string * pyval) :=
  match d with
  | [] => [(k, v)]
  | (k', v') :: d' =>
      if String.eqb k k' then (k, v) :: d' else (k', v') :: dict_set k v d'
  end.

(** [GET /analyze]. *)
Definition analyze (w : World) (date : option string) : result reply :=
  match find_data_file w with
  | None =>
      Ok (JSONResponse 200
            (PDict [("message",
                     PStr "Aucun fichier habitat_index_H.nc trouvé. Exécute le notebook pour le générer.");
                    ("expected_file", PStr DATA_FILENAME)]))
  | Some data_path =>
      try_except
        (ds <- load_h_dataset w data_path ;;
         let H := H_index ds in
         hmin <- np.nanmin H ;;
         hmax <- np.nanmax H ;;
         let hmean := np.nanmean (np.flatten H) in
         let payload :=
           [("data_path", PStr data_path);
            ("stats", PDict [("min", PFloat hmin); ("max", PFloat hmax);
                             ("mean", PFloat hmean)])] in
         match date with
         | Some d =>
             _ <- try_except (strptime.parse d)
                    (fun _ => Raise (HTTPException 400
                                "Format de date invalide, attendu YYYY-MM-DD")) ;;
             Ok (Body (PDict (dict_set "requested_date" (PStr d) payload)))
         | None => Ok (Body (PDict payload))
         end)
        (fun e => Raise (HTTPException 500 ("Erreur d'analyse: " ++ py_str e)))
  end.

(** The index of the axis entry nearest to the query:
    [int(np.clip(np.abs(axis - q).argmin(), 0, axis.size - 1))]. *)
Definition distances (axis : list float) (q : float) : list float :=
  map (fun x => F64.abs (F64.sub x q)) axis.

Definition nearest_index (axis : list float) (q : float) : result Z :=
  k <- np.argmin (distances axis q) ;;
  Ok (np.clip (Z.of_nat k) 0 (Z.of_nat (List.length axis) - 1)).

(** [GET /predict]. *)
Definition predict (w : World) (latQ lonQ : float) : result reply :=
  match find_data_file w with
  | None =>
      Ok (Body (PDict [("lat", PFloat latQ); ("lon", PFloat lonQ);
                       ("H", PFloat F64.half);
                       ("note", PStr "H absent, renvoi par défaut")]))
  | Some data_path =>
      try_except
        (ds <- load_h_dataset w data_path ;;
         let H := H_index ds in
         let lat_arr := lat ds in
         let lon_arr := lon ds in
         i <- nearest_index lat_arr latQ ;;
         j <- nearest_index lon_arr lonQ ;;
         c <- np.getitem2 H i j ;;
         let val := if np.isfinite c then c else F64.nan in
         Ok (Body (PDict [("lat", PFloat latQ); ("lon", PFloat lonQ);
                          ("H", PFloat val); ("i", PInt i); ("j", PInt j)])))
        (fun e => Raise (HTTPException 500 ("Erreur prédiction: " ++ py_str e)))
  end.

(** [None if not np.isfinite(v) else float(v)]. *)
Definition null_unless_finite (v : float) : pyval :=
  if negb (np.isfinite v) then PNone else PFloat v.

Definition tolist (a : list float) : pyval := PList (map PFloat a).

(** The default branch of [/series]: the histogram of the finite cells. *)
Definition series_global (H : ndarray2) : reply :=
  let arr := np.flatten H in
  let arr := filter np.isfinite arr in
  if (List.length arr =? 0)%nat then
    Body (PDict [("type", PStr "global"); ("bins", PList []); ("counts", PList [])])
  else
    let '(counts, edges) := np.histogram arr 10 (F64.zero, F64.one) in
    let bins := tolist (removelast edges) in
    Body (PDict [("type", PStr "global"); ("bins", bins);
                 ("counts", PList (map PInt counts))]).

(** [GET /series]. *)
Definition series (w : World) (agg : string) : result reply :=
  match find_data_file w with
  | None =>
      Raise (HTTPException 404 "Fichier H introuvable. Exécute le notebook.")
  | Some data_path =>
      try_except
        (ds <- load_h_dataset w data_path ;;
         let H := H_index ds in
         if String.eqb agg "lat_mean" then
           let vals := np.nanmean_axis1 H in
           Ok (Body (PDict [("type", PStr "lat_mean"); ("lat", tolist (lat ds));
                            ("H", PList (map null_unless_finite vals))]))
         else if String.eqb agg "lon_mean" then
           let vals := np.nanmean_axis0 H in
           Ok (Body (PDict [("type", PStr "lon_mean"); ("lon", tolist (lon ds));
                            ("H", PList (map null_unless_finite vals))]))
         else Ok (series_global H))
        (fun e => Raise (HTTPException 500 ("Erreur séries: " ++ py_str e)))
  end.

(* ===================================================================== *)
(** * Sample data *)
(* ===================================================================== *)

Module Sample.

Definition f0_1 : float := Eval cbv in F64.of_bits 7205759403792794 (-56).
Definition f0_2 : float := Eval cbv in F64.of_bits 7205759403792794 (-55).
Definition f0_4 : float := Eval cbv in F64.of_bits 7205759403792794 (-54).
Definition f0_8 : float := Eval cbv in F64.of_bits 7205759403792794 (-53).
Definition f10 : float := Eval cbv in F64.of_Z 10.
Definition f20 : float := Eval cbv in F64.of_Z 20.
Definition f100 : float := Eval cbv in F64.of_Z 100.
Definition f110 : float := Eval cbv in F64.of_Z 110.
Definition f15 : float := Eval cbv in F64.of_Z 15.
Definition f105 : float := Eval cbv in F64.of_Z 105.
Definition f1e17 : float := Eval cbv in F64.of_Z (10 ^ 17).
Definition inf : float := S754_infinity false.
Definition neg_inf : float := S754_infinity true.

(** The grid [[0.2, NaN], [0.8, 0.4]] over [lat = [10, 20]] and
    [lon = [100, 110]]. *)
Definition grid : ndarray2 :=
  {| nd_ncols := 2; nd_rows := [[f0_2; F64.nan]; [f0_8; f0_4]] |}.

Definition dataset (H : ndarray2) (la lo : list float) : xr_Dataset :=
  {| var_H_index := Some H; coord_lat := Some la; coord_lon := Some lo |}.

Definition starts_with_slash (p : string) : bool :=
  match p with
  | String c _ => Ascii.eqb c "/"
  | EmptyString => false
  end.

(** A machine whose working directory is [/app], the program being
    [/app/api/index.py], with the files [files] and no environment
    variable set; every file opens as [ds]. *)
Definition world_with (files : list string) (ds : xr_Dataset) : World :=
  {| getenv := fun _ => None;
     path_exists := fun p => existsb (String.eqb p) files;
     path_abspath := fun p => if starts_with_slash p then p else "/app/" ++ p;
     path_join := String.concat "/";
     getcwd := "/app";
     dirname_file := "/app/api";
     open_dataset := fun _ => Ok ds |}.

Definition data_path : string := "/app/habitat_index_H.nc".

Definition world : World :=
  world_with [data_path] (dataset grid [f10; f20] [f100; f110]).

Definition no_file : World :=
  world_with [] (dataset grid [f10; f20] [f100; f110]).


(** A grid without any finite cell. *)
Definition all_nan : World :=
  world_with [data_path]
    (dataset {| nd_ncols := 1; nd_rows := [[F64.nan]] |} [f10] [f100]).


(** A grid with infinite cells. *)
Definition with_inf_grid : ndarray2 :=
  {| nd_ncols := 2; nd_rows := [[inf; f0_2]; [f0_4; neg_inf]] |}.

Definition with_inf : World :=
  world_with [data_path] (dataset with_inf_grid [f10; f20] [f100; f110]).

(** One row of eight cells equal to 0.1, over the longitudes 100 to 107. *)
Definition eight_tenths : ndarray2 :=
  {| nd_ncols := 8; nd_rows := [repeat f0_1 8] |}.

Definition eight_lons : list float :=
  map F64.of_Z [100; 101; 102; 103; 104; 105; 106; 107]%Z.

Definition eights : World :=
  world_with [data_path] (dataset eight_tenths [f10] eight_lons).

(** The sample grid under a latitude axis that holds NaN. *)
Definition nan_lat : World :=
  world_with [data_path] (dataset grid [f10; F64.nan] [f100; f110]).

End Sample.

(* ===================================================================== *)
(** * Notions used in the statements *)
(* ===================================================================== *)

Definition no_file_message : pyval :=
  PDict [("message",
          PStr "Aucun fichier habitat_index_H.nc trouvé. Exécute le notebook pour le générer.");
         ("expected_file", PStr "habitat_index_H.nc")].

(** [r] is the first index of [d] holding a NaN. *)
Definition first_nan (d : list float) (r : nat) : Prop :=
  exists v, nth_error d r = Some v /\ F64.isnan v = true /\
    forall m x, (m < r)%nat -> nth_error d m = Some x -> F64.isnan x = false.

(** [r] is the first index of [d] holding its least element. *)
Definition first_min (d : list float) (r : nat) : Prop :=
  exists v, nth_error d r = Some v /\
    (forall m x, nth_error d m = Some x -> F64.leb v x = true) /\
    (forall m x, (m < r)%nat -> nth_error d m = Some x -> F64.leb x v = false).

(** The value that [/predict] reports for the cell [c]. *)
Definition reported (c : float) : float :=
  if np.isfinite c then c else F64.nan.

Definition predict_body (latQ lonQ : float) (c : float) (i j : Z) : reply :=
  Body (PDict [("lat", PFloat latQ); ("lon", PFloat lonQ);
               ("H", PFloat (reported c)); ("i", PInt i); ("j", PInt j)]).




(** The entry at index [k] is a least element of [d]. *)
Definition attains_min (d : list float) (k : nat) : Prop :=
  exists vk, nth_error d k = Some vk /\
    forall m x, nth_error d m = Some x -> F64.leb vk x = true.


(** The mean of adjacent cells without their NaN cells, written out: the
    pairwise binary64 sum of the cells, NaN cells counting as zero,
    divided by the number of cells that are not NaN. *)
Definition mean_of (cells : list float) : float :=
  F64.div (F64.add F64.neg_zero
             (np.pairwise_sum
                (map (fun x => if np.isnan x then F64.zero else x) cells)))
          (F64.of_Z (Z.of_nat (List.length
                                 (filter (fun x => negb (np.isnan x)) cells)))).

(** The same for cells that lie one row apart, added in order. *)
Definition mean_of_strided (cells : list float) : float :=
  F64.div (fold_left F64.add
             (map (fun x => if np.isnan x then F64.zero else x) cells)
             F64.neg_zero)
          (F64.of_Z (Z.of_nat (List.length
                                 (filter (fun x => negb (np.isnan x)) cells)))).

(** The mean of column [j] as [np.nanmean(a, axis=0)] computes it. *)
Definition column_mean (H : ndarray2) (j : nat) : float :=
  if (nd_ncols H =? 1)%nat then mean_of (np.column j H)
  else mean_of_strided (np.column j H).

Definition analyze_body (data_path : string) (hmin hmax hmean : float) : reply :=
  Body (PDict [("data_path", PStr data_path);
               ("stats", PDict [("min", PFloat hmin); ("max", PFloat hmax);
                                ("mean", PFloat hmean)])]).

(** The eleven edges of ten equal bins over [[0, 1]], as [linspace]
    computes them: 0, 0.1, 0.2, 0.30000000000000004, 0.4, 0.5,
    0.6000000000000001, 0.7000000000000001, 0.8, 0.9 and 1. *)
Definition edges10 : list float :=
  Eval vm_compute in np.linspace F64.zero F64.one 11.

Definition left_edges10 : list float := Eval vm_compute in removelast edges10.

(** Each edge is strictly below the next. *)
Fixpoint ascending (l : list float) : bool :=
  match l with
  | x :: (y :: _) as l' => F64.ltb x y && ascending l'
  | _ => true
  end.

Definition b2n (b : bool) : nat := if b then 1%nat else 0%nat.

(** Python's [sum] of a list of integers. *)
Definition sumZ (l : list Z) : Z := fold_right Z.add 0%Z l.

(** The finite cells of a grid, in row-major order, and those of them
    within [[0, 1]]. *)
Definition finite_cells (H : ndarray2) : list float :=
  filter np.isfinite (np.flatten H).

Definition cells_in_range (H : ndarray2) : list float :=
  filter (np.in_range F64.zero F64.one) (finite_cells H).

Definition bin_counts (H : ndarray2) : list Z :=
  map (fun k => Z.of_nat (List.length (filter (np.in_bin edges10 10 k)
                                              (cells_in_range H))))
      (seq 0 10).

(* ===================================================================== *)
(** * The rest of the program: [/meta] and the CORS origins *)
(* ===================================================================== *)

(** [GET /meta].  Nothing is caught here: what [load_h_dataset] or a
    reduction raises leaves the handler as it is. *)
Definition meta (w : World) : result reply :=
  match find_data_file w with
  | None =>
      Raise (HTTPException 404 "Fichier H introuvable. Exécute le notebook.")
  | Some data_path =>
      ds <- load_h_dataset w data_path ;;
      let lat := lat ds in
      let lon := lon ds in
      lat_min <- np.amin lat ;;
      lat_max <- np.amax lat ;;
      lon_min <- np.amin lon ;;
      lon_max <- np.amax lon ;;
      Ok (Body (PDict
                  [("path", PStr data_path);
                   ("lat", PDict [("size", PInt (Z.of_nat (List.length lat)));
                                  ("min", PFloat lat_min);
                                  ("max", PFloat lat_max)]);
                   ("lon", PDict [("size", PInt (Z.of_nat (List.length lon)));
                                  ("min", PFloat lon_min);
                                  ("max", PFloat lon_max)])]))
  end.

(** Python's [str.strip()] and [str.split(sep)] for a separator of one
    character.  The characters of a string are taken as code points below
    256, of which [isspace] holds for 9 to 13, 28 to 32, 133 and 160. *)
Module pystr.

Definition isspace (c : ascii) : bool :=
  let n := nat_of_ascii c in
  ((9 <=? n) && (n <=? 13) || (28 <=? n) && (n <=? 32)
   || (n =? 133) || (n =? 160))%nat.

Fixpoint lstrip (s : string) : string :=
  match s with
  | EmptyString => EmptyString
  | String c s' => if isspace c then lstrip s' else s
  end.

Fixpoint rstrip (s : string) : string :=
  match s with
  | EmptyString => EmptyString
  | String c s' =>
      match rstrip s' with
      | EmptyString => if isspace c then EmptyString else String c EmptyString
      | r => String c r
      end
  end.

Definition strip (s : string) : string := rstrip (lstrip s).

Fixpoint split (sep : ascii) (s : string) : list string :=
  match s with
  | EmptyString => [EmptyString]
  | String c s' =>
      if Ascii.eqb c sep then EmptyString :: split sep s'
      else match split sep s' with
           | p :: ps => String c p :: ps
           | [] => [String c EmptyString]
           end
  end.

(** Truth value of a string: the empty string is false. *)
Definition nonempty (s : string) : bool :=
  match s with EmptyString => false | String _ _ => true end.

End pystr.

(** The list given to the CORS middleware:
    [[o.strip() for o in cors_env.split(",") if o.strip()] if cors_env
     else ["*"]], where [cors_env] is the environment variable
    [CORS_ALLOW_ORIGINS] or ["*"] when it is not set. *)
Definition cors_env (w : World) : string :=
  match getenv w "CORS_ALLOW_ORIGINS" with
  | Some v => v
  | None => "*"
  end.

Definition allow_origins (w : World) : list string :=
  if pystr.nonempty (cors_env w) then
    map pystr.strip
        (filter (fun o => pystr.nonempty (pystr.strip o))
                (pystr.split "," (cors_env w)))
  else ["*"].

(** The characters of a string. *)
Definition chars (s : string) : list ascii := list_ascii_of_string s.

(** An origin as the middleware gets it: not empty, without a comma and
    without white space at either end. *)
Definition clean_origin (o : string) : Prop :=
  o <> "" /\ pystr.strip o = o /\ ~ In ","%char (chars o).

(** A world that only differs from [w] in the value of one environment
    variable. *)
Definition with_env (w : World) (name : string) (v : option string) : World :=
  {| getenv := fun n => if String.eqb n name then v else getenv w n;
     path_exists := path_exists w;
     path_abspath := path_abspath w;
     path_join := path_join w;
     getcwd := getcwd w;
     dirname_file := dirname_file w;
     open_dataset := open_dataset w |}.

(** [xr.open_dataset] raises errors of its own, never an [HTTPException]. *)
Definition opens_without_http (w : World) : Prop :=
  forall p c d, open_dataset w p <> Raise (HTTPException c d).

(** The override of [find_data_file] can be used: the variable is set, not
    empty, and names something that exists. *)
Definition usable_override (w : World) : option string :=
  match getenv w "MAZI_DATA_PATH" with
  | Some p => if truthy (Some p) && path_exists w p then Some p else None
  | None => None
  end.

(** The axis that [/series] returns as it is next to the values. *)
Definition series_axis (ds : Dataset) (agg : string) : list float :=
  if String.eqb agg "lat_mean" then lat ds
  else if String.eqb agg "lon_mean" then lon ds
  else [].

(** The answer of [/meta]. *)
Definition meta_body (data_path : string) (n_lat n_lon : nat)
  (lat_min lat_max lon_min lon_max : float) : reply :=
  Body (PDict
          [("path", PStr data_path);
           ("lat", PDict [("size", PInt (Z.of_nat n_lat));
                          ("min", PFloat lat_min); ("max", PFloat lat_max)]);
           ("lon", PDict [("size", PInt (Z.of_nat n_lon));
                          ("min", PFloat lon_min); ("max", PFloat lon_max)])]).

(* ===================================================================== *)
(** * Lemmas on the order of binary64 numbers *)
(* ===================================================================== *)

Ltac order_cases :=
  repeat match goal with
         | |- context [Z.compare ?a ?b] =>
             destruct (Z.compare_spec a b)
         | |- context [Pos.compare_cont Eq ?a ?b] =>
             change (Pos.compare_cont Eq a b) with (Pos.compare a b);
             destruct (Pos.compare_spec a b)
         end.

Lemma leb_rank (x y : float) :
  F64.leb x y = true <->
  exists a b, rank x = Some a /\ rank y = Some b /\ lex_le a b.
Proof.
  unfold F64.leb, SFleb.
  destruct x as [sx | sx | | sx mx ex], y as [sy | sy | | sy my ey];
    try destruct sx; try destruct sy; cbn [SFcompare rank];
    order_cases; cbn [CompOpp];
    (split;
     [ intros Hcmp;
       first [ discriminate Hcmp
             | eexists; eexists; split; [reflexivity|]; split; [reflexivity|];
               cbn; lia ]
     | intros (a & b & Ha & Hb & Hab);
       first [ discriminate Ha | discriminate Hb
             | injection Ha as <-; injection Hb as <-; cbn in Hab;
               first [reflexivity | exfalso; lia] ] ]).
Qed.

Lemma ltb_rank (x y : float) :
  F64.ltb x y = true <->
  exists a b, rank x = Some a /\ rank y = Some b /\ lex_lt a b.
Proof.
  unfold F64.ltb, SFltb.
  destruct x as [sx | sx | | sx mx ex], y as [sy | sy | | sy my ey];
    try destruct sx; try destruct sy; cbn [SFcompare rank];
    order_cases; cbn [CompOpp];
    (split;
     [ intros Hcmp;
       first [ discriminate Hcmp
             | eexists; eexists; split; [reflexivity|]; split; [reflexivity|];
               cbn; lia ]
     | intros (a & b & Ha & Hb & Hab);
       first [ discriminate Ha | discriminate Hb
             | injection Ha as <-; injection Hb as <-; cbn in Hab;
               first [reflexivity | exfalso; lia] ] ]).
Qed.

Lemma rank_isnan (x : float) : F64.isnan x = false <-> exists a, rank x = Some a.
Proof.
  destruct x as [s | s | | s m e]; try destruct s; cbn; split;
    intros H; try discriminate H; try (eexists; reflexivity);
    try reflexivity; destruct H as [a H]; discriminate H.
Qed.

Lemma leb_trans (x y z : float) :
  F64.leb x y = true -> F64.leb y z = true -> F64.leb x z = true.
Proof.
  rewrite !leb_rank.
  intros (a & b & Ha & Hb & Hab) (b' & c & Hb' & Hc & Hbc).
  rewrite Hb in Hb'. injection Hb' as <-.
  exists a, c. repeat split; trivial.
  destruct a as [[a1 a2] a3], b as [[b1 b2] b3], c as [[c1 c2] c3].
  cbn in *. lia.
Qed.

Lemma leb_total (x y : float) :
  F64.isnan x = false -> F64.isnan y = false ->
  F64.leb x y = true \/ F64.leb y x = true.
Proof.
  rewrite !rank_isnan, !leb_rank. intros [a Ha] [b Hb].
  destruct a as [[a1 a2] a3] eqn:Ea, b as [[b1 b2] b3] eqn:Eb.
  assert (lex_le a b \/ lex_le b a) as [H | H] by (subst; cbn; lia).
  - left. exists a, b. subst. auto.
  - right. exists b, a. subst. auto.
Qed.

Lemma leb_refl (x : float) : F64.isnan x = false -> F64.leb x x = true.
Proof. intros H. destruct (leb_total x x H H); assumption. Qed.

Lemma leb_notnan (x y : float) :
  F64.leb x y = true -> F64.isnan x = false /\ F64.isnan y = false.
Proof.
  rewrite leb_rank, !rank_isnan. intros (a & b & Ha & Hb & _). eauto.
Qed.

(** For numbers that are not NaN, [x < y] is the negation of [y <= x]. *)
Lemma ltb_negb_leb (x y : float) :
  F64.isnan x = false -> F64.isnan y = false ->
  F64.ltb x y = negb (F64.leb y x).
Proof.
  intros Hx Hy.
  apply rank_isnan in Hx as [a Ha]. apply rank_isnan in Hy as [b Hb].
  destruct (F64.ltb x y) eqn:Hlt, (F64.leb y x) eqn:Hle; cbn; trivial;
    exfalso.
  - apply ltb_rank in Hlt as (a' & b' & Ha' & Hb' & Hlt).
    apply leb_rank in Hle as (b'' & a'' & Hb'' & Ha'' & Hle).
    rewrite Ha in Ha', Ha''. rewrite Hb in Hb', Hb''.
    injection Ha' as <-. injection Ha'' as <-.
    injection Hb' as <-. injection Hb'' as <-.
    destruct a as [[a1 a2] a3], b as [[b1 b2] b3]. cbn in *. lia.
  - assert (lex_lt a b \/ lex_le b a) as [H | H]
      by (destruct a as [[a1 a2] a3], b as [[b1 b2] b3]; cbn; lia).
    + assert (F64.ltb x y = true) by (apply ltb_rank; eauto).
      congruence.
    + assert (F64.leb y x = true) by (apply leb_rank; eauto).
      congruence.
Qed.

(* ===================================================================== *)
(** * [/analyze]: the answers and their status codes *)
(* ===================================================================== *)

(** A returned body is answered with 200 when it can be encoded and with
    500 when it cannot. *)
Lemma http_status_body (v : pyval) :
  http_status (Ok (Body v)) = (if json_compliant v then 200 else 500)%Z.
Proof. reflexivity. Qed.

Lemma http_status_body_cases (v : pyval) :
  http_status (Ok (Body v)) = 200%Z \/ http_status (Ok (Body v)) = 500%Z.
Proof. rewrite http_status_body. destruct (json_compliant v); auto. Qed.

Lemma http_status_body_200 (v : pyval) :
  http_status (Ok (Body v)) = 200%Z <-> json_compliant v = true.
Proof.
  rewrite http_status_body.
  destruct (json_compliant v); split; trivial; discriminate.
Qed.

Lemma http_status_body_500 (v : pyval) :
  http_status (Ok (Body v)) = 500%Z <-> json_compliant v = false.
Proof.
  rewrite http_status_body.
  destruct (json_compliant v); split; trivial; discriminate.
Qed.

(** Whatever is raised inside the [try] of [analyze] leaves it as a 500:
    the handler has two status codes only. *)
Lemma analyze_status (w : World) (date : option string) :
  http_status (analyze w date) = 200%Z \/ http_status (analyze w date) = 500%Z.
Proof.
  unfold analyze.
  destruct (find_data_file w) as [p |]; [| left; reflexivity].
  destruct (load_h_dataset w p) as [ds | e]; cbn [bind try_except];
    [| right; reflexivity].
  destruct (np.nanmin (H_index ds)); cbn [bind try_except];
    [| right; reflexivity].
  destruct (np.nanmax (H_index ds)); cbn [bind try_except];
    [| right; reflexivity].
  destruct date as [d |]; [apply http_status_body_cases || idtac |].
  - destruct (strptime.parse d); cbn [bind try_except];
      [apply http_status_body_cases | right; reflexivity].
  - apply http_status_body_cases.
Qed.

Section AnalyzeLoaded.

Variables (w : World) (data_path : string) (ds : Dataset).
Variables (hmin hmax : float).
Hypothesis Hfind : find_data_file w = Some data_path.
Hypothesis Hload : load_h_dataset w data_path = Ok ds.
Hypothesis Hmin : np.nanmin (H_index ds) = Ok hmin.
Hypothesis Hmax : np.nanmax (H_index ds) = Ok hmax.

(** With the file found, loaded and its statistics computed, a date that
    [strptime] refuses raises the 400 inside the outer [try], whose
    [except Exception] turns it into a 500. *)
Lemma analyze_refused_date (d : string) (e : exn) :
  strptime.parse d = Raise e ->
  analyze w (Some d)
  = Raise (HTTPException 500
             "Erreur d'analyse: 400: Format de date invalide, attendu YYYY-MM-DD").
Proof.
  intros Hd. unfold analyze.
  rewrite Hfind, Hload. cbn. rewrite Hmin. cbn. rewrite Hmax. cbn.
  rewrite Hd. reflexivity.
Qed.

End AnalyzeLoaded.

(** C1 (the code fails the claim).  With the sample dataset found and
    loaded, the malformed date ["2024/01/01"] is refused by [strptime], yet
    [/analyze] answers with status 500 and not with the client error 400
    that the inner [raise] names. *)
Theorem analyze_malformed_date_is_500 :
  find_data_file Sample.world = Some Sample.data_path /\
  (exists ds, load_h_dataset Sample.world Sample.data_path = Ok ds) /\
  (exists e, strptime.parse "2024/01/01" = Raise e) /\
  analyze Sample.world (Some "2024/01/01")
  = Raise (HTTPException 500
             "Erreur d'analyse: 400: Format de date invalide, attendu YYYY-MM-DD") /\
  http_status (analyze Sample.world (Some "2024/01/01")) = 500%Z.
Proof.
  split; [reflexivity |].
  split; [eexists; reflexivity |].
  split; [eexists; reflexivity |].
  split; vm_compute; reflexivity.
Qed.

(** The date is validated after the file search, the loading and the
    statistics: when the request without a date fails, so does the request
    with any date, in the same way. *)
Lemma analyze_date_checked_last (w : World) (d : string) (e : exn) :
  analyze w None = Raise e -> analyze w (Some d) = Raise e.
Proof.
  unfold analyze.
  destruct (find_data_file w) as [p |]; [| discriminate].
  destruct (load_h_dataset w p) as [ds | e1]; cbn; [| trivial].
  destruct (np.nanmin (H_index ds)); cbn; [| trivial].
  destruct (np.nanmax (H_index ds)); cbn; [| trivial].
  discriminate.
Qed.

(** The date can change the answer only once a file has been found and
    loaded and the minimum and maximum of the grid computed. *)
Lemma analyze_date_matters_inv (w : World) (date : option string) :
  analyze w date <> analyze w None ->
  exists p ds hmin hmax,
    find_data_file w = Some p /\ load_h_dataset w p = Ok ds /\
    np.nanmin (H_index ds) = Ok hmin /\ np.nanmax (H_index ds) = Ok hmax.
Proof.
  destruct date as [d |]; [| intros H; destruct H; reflexivity].
  unfold analyze.
  destruct (find_data_file w) as [p |];
    [| intros H; destruct H; reflexivity].
  destruct (load_h_dataset w p) as [ds | e1] eqn:Hload; cbn;
    [| intros H; destruct H; reflexivity].
  destruct (np.nanmin (H_index ds)) as [hmin | e2] eqn:Hmin; cbn;
    [| intros H; destruct H; reflexivity].
  destruct (np.nanmax (H_index ds)) as [hmax | e3] eqn:Hmax; cbn;
    [| intros H; destruct H; reflexivity].
  intros _. exists p, ds, hmin, hmax. auto.
Qed.

(** C9.  When no dataset file is found, [/analyze] returns the explanatory
    message with status 200 whatever the [date] parameter is, absent,
    well-formed or malformed, and so not a client error: the date is
    examined only after a file has been found and loaded and the statistics
    computed, and changes nothing before. *)
Theorem analyze_no_file_any_date (w : World) (date : option string) :
  (find_data_file w = None ->
   analyze w date = Ok (JSONResponse 200 no_file_message) /\
   http_status (analyze w date) = 200%Z /\
   http_status (analyze w date) <> 400%Z) /\
  (analyze w date <> analyze w None ->
   exists p ds hmin hmax,
     find_data_file w = Some p /\ load_h_dataset w p = Ok ds /\
     np.nanmin (H_index ds) = Ok hmin /\ np.nanmax (H_index ds) = Ok hmax).
Proof.
  split; [| apply analyze_date_matters_inv].
  intros Hnone. unfold analyze. rewrite Hnone.
  split; [reflexivity |]. split; [reflexivity |]. cbn. discriminate.
Qed.

Lemma analyze_no_file_any_date_witness :
  find_data_file Sample.no_file = None /\
  (exists e, strptime.parse "2024/01/01" = Raise e) /\
  analyze Sample.no_file (Some "2024/01/01")
  = Ok (JSONResponse 200 no_file_message).
Proof.
  split; [reflexivity |].
  split; [eexists; reflexivity |].
  apply (analyze_no_file_any_date Sample.no_file (Some "2024/01/01")).
  reflexivity.
Defined.

(* ===================================================================== *)
(** * The nearest-index search *)
(* ===================================================================== *)

Lemma nth_error_snoc (A : Type) (pre : list A) (x y : A) (m : nat) :
  nth_error (pre ++ [x]) m = Some y ->
  nth_error pre m = Some y \/ (m = List.length pre /\ y = x).
Proof.
  intros H. destruct (Nat.lt_ge_cases m (List.length pre)) as [Hlt | Hge].
  - rewrite nth_error_app1 in H by assumption. auto.
  - rewrite nth_error_app2 in H by assumption.
    destruct (m - List.length pre)%nat as [| k] eqn:E; cbn in H.
    + right. split; [lia | congruence].
    + destruct k; discriminate H.
Qed.

Lemma argmin_loop_spec (ip : list float) :
  forall (pre : list float) (mp : float) (min_ind : nat),
    nth_error pre min_ind = Some mp ->
    (forall m x, nth_error pre m = Some x -> F64.leb mp x = true) ->
    (forall m x, (m < min_ind)%nat -> nth_error pre m = Some x ->
                 F64.leb x mp = false) ->
    let r := np.argmin_loop mp min_ind (List.length pre) ip in
    first_nan (pre ++ ip) r \/ first_min (pre ++ ip) r.
Proof.
  induction ip as [| x rest IH]; intros pre mp min_ind Hmp Hmin Hfirst;
    cbn [np.argmin_loop].
  - right. rewrite app_nil_r. exists mp. auto.
  - assert (Hlen : (min_ind < List.length pre)%nat)
      by (apply nth_error_Some; congruence).
    assert (Hmpn : F64.isnan mp = false)
      by (apply (leb_notnan mp mp); eauto).
    unfold F64.geb. destruct (F64.leb mp x) eqn:Hle; cbn [negb].
    + specialize (IH (pre ++ [x])%list mp min_ind).
      rewrite length_app, Nat.add_1_r, <- app_assoc in IH. apply IH.
      * rewrite nth_error_app1 by assumption. assumption.
      * intros m y Hy. apply nth_error_snoc in Hy as [Hy | [_ ->]]; eauto.
      * intros m y Hm Hy.
        rewrite nth_error_app1 in Hy by lia. eauto.
    + destruct (np.isnan x) eqn:Hnan.
      * left. exists x. split; [| split; [assumption |]].
        -- rewrite nth_error_app2, Nat.sub_diag by lia. reflexivity.
        -- intros m y Hm Hy. rewrite nth_error_app1 in Hy by assumption.
           apply Hmin in Hy. apply leb_notnan in Hy. tauto.
      * assert (Hxm : F64.leb x mp = true).
        { destruct (leb_total x mp Hnan Hmpn) as [H | H]; congruence. }
        specialize (IH (pre ++ [x])%list x (List.length pre)).
        rewrite length_app, Nat.add_1_r, <- app_assoc in IH. apply IH.
        -- rewrite nth_error_app2, Nat.sub_diag by lia. reflexivity.
        -- intros m y Hy. apply nth_error_snoc in Hy as [Hy | [_ ->]].
           ++ apply leb_trans with mp; eauto.
           ++ apply leb_refl. assumption.
        -- intros m y Hm Hy. rewrite nth_error_app1 in Hy by assumption.
           destruct (F64.leb y x) eqn:Hyx; [| reflexivity].
           assert (F64.leb mp x = true)
             by (apply leb_trans with y; eauto).
           congruence.
Qed.

(** [argmin] of a non-empty array: the first NaN if there is one, the first
    least element otherwise. *)
Lemma argmin_spec (d : list float) :
  d <> [] ->
  exists r, np.argmin d = Ok r /\ (first_nan d r \/ first_min d r).
Proof.
  destruct d as [| x rest]; [congruence | intros _].
  cbn. eexists. split; [reflexivity |].
  destruct (np.isnan x) eqn:Hnan.
  - left. exists x. repeat split; trivial. intros m y Hm. lia.
  - apply (argmin_loop_spec rest [x] x 0).
    + reflexivity.
    + intros [| [| m]] y Hy; cbn in Hy; try discriminate Hy.
      injection Hy as <-. apply leb_refl. assumption.
    + intros m y Hm. lia.
Qed.

Lemma first_nan_lt (d : list float) (r : nat) :
  first_nan d r -> (r < List.length d)%nat.
Proof. intros (v & Hv & _). apply nth_error_Some. congruence. Qed.

Lemma first_min_lt (d : list float) (r : nat) :
  first_min d r -> (r < List.length d)%nat.
Proof. intros (v & Hv & _). apply nth_error_Some. congruence. Qed.


Lemma length_distances (axis : list float) (q : float) :
  List.length (distances axis q) = List.length axis.
Proof. apply length_map. Qed.

(** The search on a non-empty axis succeeds with the index that [argmin]
    picks: the clip changes nothing. *)
Lemma nearest_index_spec (axis : list float) (q : float) :
  axis <> [] ->
  exists r, nearest_index axis q = Ok (Z.of_nat r) /\
    (r < List.length axis)%nat /\
    (first_nan (distances axis q) r \/ first_min (distances axis q) r).
Proof.
  intros Hne.
  destruct (argmin_spec (distances axis q)) as (r & Hr & Hspec).
  { destruct axis; [congruence | discriminate]. }
  assert (Hlt : (r < List.length axis)%nat).
  { rewrite <- (length_distances axis q).
    destruct Hspec; [apply first_nan_lt | apply first_min_lt]; assumption. }
  exists r. split; [| auto].
  unfold nearest_index. rewrite Hr. cbn. unfold np.clip. f_equal. lia.
Qed.

(* ===================================================================== *)
(** * [/predict] *)
(* ===================================================================== *)

(** [F64.half] is the number 0.5: twice it is one. *)
Lemma half_twice : F64.add F64.half F64.half = F64.one.
Proof. reflexivity. Qed.

(** C4, as the code has it.  When no dataset file is found, the handler of
    [/predict] raises nothing for any query: it returns the query
    coordinates as given, [H = 0.5] and an explanatory note.  The answer
    is a success (status 200) exactly when both query coordinates are
    finite; a query coordinate that is NaN or an infinity is echoed into
    the body, which cannot be encoded, and the answer is a 500. *)
Theorem predict_no_file_default (w : World) (latQ lonQ : float) :
  find_data_file w = None ->
  predict w latQ lonQ
  = Ok (Body (PDict [("lat", PFloat latQ); ("lon", PFloat lonQ);
                     ("H", PFloat F64.half);
                     ("note", PStr "H absent, renvoi par défaut")])) /\
  (http_status (predict w latQ lonQ) = 200%Z <->
   F64.isfinite latQ = true /\ F64.isfinite lonQ = true) /\
  (http_status (predict w latQ lonQ) = 500%Z <->
   F64.isfinite latQ = false \/ F64.isfinite lonQ = false) /\
  (exists r, predict w latQ lonQ = Ok r /\
     field "lat" r = Some (PFloat latQ) /\
     field "lon" r = Some (PFloat lonQ) /\
     field "H" r = Some (PFloat F64.half) /\
     exists note, field "note" r = Some (PStr note)).
Proof.
  intros Hnone. unfold predict. rewrite Hnone.
  split; [reflexivity |].
  split; [| split].
  - rewrite http_status_body_200. cbn [json_compliant forallb snd].
    change (F64.isfinite F64.half) with true.
    rewrite !andb_true_r. apply andb_true_iff.
  - rewrite http_status_body_500. cbn [json_compliant forallb snd].
    change (F64.isfinite F64.half) with true.
    rewrite !andb_true_r. apply andb_false_iff.
  - eexists. split; [reflexivity |].
    repeat split. eexists. reflexivity.
Qed.

Lemma predict_no_file_default_witness :
  find_data_file Sample.no_file = None /\
  http_status (predict Sample.no_file Sample.f1e17 Sample.f10) = 200%Z.
Proof.
  split; [reflexivity |].
  apply (predict_no_file_default Sample.no_file Sample.f1e17 Sample.f10);
    [reflexivity |].
  split; reflexivity.
Defined.

(** C4, the claim as given fails: with no file and the longitude NaN the
    handler returns its default body, NaN echoed in it, and the answer is
    a 500, not a success. *)
Lemma predict_no_file_nan_query :
  find_data_file Sample.no_file = None /\
  predict Sample.no_file Sample.f10 F64.nan
  = Ok (Body (PDict [("lat", PFloat Sample.f10); ("lon", PFloat F64.nan);
                     ("H", PFloat F64.half);
                     ("note", PStr "H absent, renvoi par défaut")])) /\
  http_status (predict Sample.no_file Sample.f10 F64.nan) = 500%Z.
Proof. split; [| split]; reflexivity. Qed.


Section PredictLoaded.

Variables (w : World) (data_path : string) (ds : Dataset).
Hypothesis Hfind : find_data_file w = Some data_path.
Hypothesis Hload : load_h_dataset w data_path = Ok ds.

Lemma predict_loaded (latQ lonQ : float) :
  predict w latQ lonQ
  = try_except
      (i <- nearest_index (lat ds) latQ ;;
       j <- nearest_index (lon ds) lonQ ;;
       c <- np.getitem2 (H_index ds) i j ;;
       Ok (predict_body latQ lonQ c i j))
      (fun e => Raise (HTTPException 500 ("Erreur prédiction: " ++ py_str e))).
Proof. unfold predict. rewrite Hfind, Hload. reflexivity. Qed.

(** What a successful answer of [/predict] is made of. *)
Lemma predict_ok_inv (latQ lonQ : float) (r : reply) :
  predict w latQ lonQ = Ok r ->
  exists i j c,
    nearest_index (lat ds) latQ = Ok i /\
    nearest_index (lon ds) lonQ = Ok j /\
    np.getitem2 (H_index ds) i j = Ok c /\
    r = predict_body latQ lonQ c i j.
Proof.
  rewrite predict_loaded.
  destruct (nearest_index (lat ds) latQ) as [i | e]; cbn; [| discriminate].
  destruct (nearest_index (lon ds) lonQ) as [j | e]; cbn; [| discriminate].
  destruct (np.getitem2 (H_index ds) i j) as [c | e] eqn:Hc; cbn;
    [| discriminate].
  intros [= <-]. exists i, j, c. auto.
Qed.


End PredictLoaded.




(** The example of the specification: the query (20, 100) on the sample
    grid resolves to [i = 1], [j = 0] and [H = 0.8]. *)
Example predict_sample :
  predict Sample.world Sample.f20 Sample.f100
  = Ok (Body (PDict [("lat", PFloat Sample.f20); ("lon", PFloat Sample.f100);
                     ("H", PFloat Sample.f0_8);
                     ("i", PInt 1); ("j", PInt 0)])).
Proof. reflexivity. Qed.


(** Queries a little outside the range do resolve to the ends of the
    axis. *)
Example predict_near_out_of_range :
  nearest_index [F64.zero; Sample.f10; Sample.f20] (F64.of_Z 1000) = Ok 2%Z /\
  nearest_index [F64.zero; Sample.f10; Sample.f20] (F64.of_Z (-1000)) = Ok 0%Z.
Proof. split; reflexivity. Qed.

(** When some entry attains the least distance, the search returns the
    first index that does. *)
Lemma nearest_index_first_min (axis : list float) (q : float) (k : nat) :
  attains_min (distances axis q) k ->
  exists i, nearest_index axis q = Ok (Z.of_nat i) /\ (i <= k)%nat /\
            first_min (distances axis q) i.
Proof.
  intros (vk & Hk & Hmin).
  destruct (nearest_index_spec axis q) as (i & Hi & _ & Hspec).
  { intros ->. destruct k; discriminate Hk. }
  assert (Hfm : first_min (distances axis q) i).
  { destruct Hspec as [(v & Hv & Hnan & _) | Hfm]; [| assumption].
    apply Hmin in Hv. apply leb_notnan in Hv. destruct Hv. congruence. }
  exists i. repeat split; trivial.
  destruct Hfm as (v & Hv & _ & Hfirst).
  destruct (Nat.le_gt_cases i k) as [Hle | Hgt]; [assumption |].
  specialize (Hfirst k vk Hgt Hk). specialize (Hmin i v Hv). congruence.
Qed.

(** C8.  When an axis entry attains the least computed distance to the
    query (so when several do), the index that [/predict] resolves is the
    first one attaining it, in index order: no later than any such entry,
    and every entry before it is strictly farther.  The answer is a
    function of the dataset and the query alone: a second run on the same
    dataset, wherever its file is found, gives the same answer. *)
Theorem predict_first_minimum_deterministic
  (w w' : World) (p p' : string) (ds : Dataset) (latQ lonQ : float)
  (k_lat k_lon : nat) :
  find_data_file w = Some p -> load_h_dataset w p = Ok ds ->
  find_data_file w' = Some p' -> load_h_dataset w' p' = Ok ds ->
  attains_min (distances (lat ds) latQ) k_lat ->
  attains_min (distances (lon ds) lonQ) k_lon ->
  predict w latQ lonQ = predict w' latQ lonQ /\
  exists i j,
    nearest_index (lat ds) latQ = Ok (Z.of_nat i) /\
    nearest_index (lon ds) lonQ = Ok (Z.of_nat j) /\
    (i <= k_lat)%nat /\ (j <= k_lon)%nat /\
    first_min (distances (lat ds) latQ) i /\
    first_min (distances (lon ds) lonQ) j /\
    forall r, predict w latQ lonQ = Ok r ->
              field "i" r = Some (PInt (Z.of_nat i)) /\
              field "j" r = Some (PInt (Z.of_nat j)).
Proof.
  intros Hfind Hload Hfind' Hload' Hklat Hklon.
  split.
  - rewrite (predict_loaded w p ds Hfind Hload).
    rewrite (predict_loaded w' p' ds Hfind' Hload'). reflexivity.
  - destruct (nearest_index_first_min _ _ _ Hklat) as (i & Hi & Hile & Hfi).
    destruct (nearest_index_first_min _ _ _ Hklon) as (j & Hj & Hjle & Hfj).
    exists i, j. repeat (split; [assumption |]).
    intros r Hr.
    destruct (predict_ok_inv w p ds Hfind Hload latQ lonQ r Hr)
      as (i' & j' & c & Hi' & Hj' & _ & ->).
    rewrite Hi in Hi'. rewrite Hj in Hj'.
    injection Hi' as <-. injection Hj' as <-. split; reflexivity.
Qed.

Lemma predict_first_minimum_deterministic_witness :
  exists i j,
    nearest_index [Sample.f10; Sample.f20] Sample.f15 = Ok (Z.of_nat i) /\
    nearest_index [Sample.f100; Sample.f110] Sample.f105 = Ok (Z.of_nat j) /\
    (i <= 1)%nat /\ (j <= 1)%nat.
Proof.
  destruct (predict_first_minimum_deterministic
              Sample.world Sample.world Sample.data_path Sample.data_path
              {| H_index := Sample.grid;
                 lat := [Sample.f10; Sample.f20];
                 lon := [Sample.f100; Sample.f110] |}
              Sample.f15 Sample.f105 1 1
              eq_refl eq_refl eq_refl eq_refl)
    as (_ & i & j & Hi & Hj & Hile & Hjle & _).
  - eexists. split; [reflexivity |].
    intros [| [| [| m]]] x Hx; cbn in Hx; try discriminate Hx;
      injection Hx as <-; reflexivity.
  - eexists. split; [reflexivity |].
    intros [| [| [| m]]] x Hx; cbn in Hx; try discriminate Hx;
      injection Hx as <-; reflexivity.
  - exists i, j. auto.
Defined.

(** A tie: the query 15 is as far from 10 as from 20, and resolves to the
    first. *)
Example predict_tie_sample :
  nearest_index [Sample.f10; Sample.f20] Sample.f15 = Ok 0%Z.
Proof. reflexivity. Qed.

(* ===================================================================== *)
(** * [/series]: the means along an axis *)
(* ===================================================================== *)


Lemma pairwise_sum_fuel_eq (fuel : nat) (a : list float) :
  np.pairwise_sum_fuel fuel a
  = if (List.length a <? 8)%nat then np.small_sum a
    else if (List.length a <=? 128)%nat then np.block_sum a
    else match fuel with
         | O => np.small_sum a
         | S fuel' =>
             let n2 := (List.length a / 2 - (List.length a / 2) mod 8)%nat in
             F64.add (np.pairwise_sum_fuel fuel' (firstn n2 a))
                     (np.pairwise_sum_fuel fuel' (skipn n2 a))
         end.
Proof. destruct fuel; reflexivity. Qed.

(** Where numpy cuts an array of more than 128 cells: both parts are
    shorter than the array. *)
Lemma pairwise_cut (n : nat) :
  (128 < n)%nat ->
  (0 < n / 2 - (n / 2) mod 8 < n)%nat.
Proof.
  intros Hn.
  assert (H64 : (64 <= n / 2)%nat)
    by (apply Nat.div_le_lower_bound; lia).
  assert (Hhalf : (n / 2 < n)%nat) by (apply Nat.div_lt; lia).
  pose proof (Nat.mod_upper_bound (n / 2) 8 ltac:(lia)) as Hm.
  lia.
Qed.

(** The recursion of the pairwise sum ends: with fuel at least the length
    of the array the fuel is never used up, and the result does not depend
    on it. *)
Lemma pairwise_sum_fuel_irrelevant (f1 : nat) :
  forall (f2 : nat) (a : list float),
    (List.length a <= f1)%nat -> (List.length a <= f2)%nat ->
    np.pairwise_sum_fuel f1 a = np.pairwise_sum_fuel f2 a.
Proof.
  induction f1 as [| f1 IH]; intros f2 a H1 H2;
    rewrite (pairwise_sum_fuel_eq _ a), (pairwise_sum_fuel_eq f2 a).
  - replace (List.length a <? 8)%nat with true
      by (symmetry; apply Nat.ltb_lt; lia).
    reflexivity.
  - destruct (List.length a <? 8)%nat; [reflexivity |].
    destruct (List.length a <=? 128)%nat eqn:Hbig; [reflexivity |].
    apply Nat.leb_gt in Hbig.
    destruct (pairwise_cut (List.length a) Hbig) as [Hpos Hlt].
    destruct f2 as [| f2]; [lia |].
    cbv zeta. f_equal; apply IH;
      rewrite ?length_firstn, ?length_skipn; lia.
Qed.

Lemma pairwise_sum_fuel_enough (fuel : nat) (a : list float) :
  (List.length a <= fuel)%nat ->
  np.pairwise_sum_fuel fuel a = np.pairwise_sum a.
Proof.
  intros H. unfold np.pairwise_sum.
  apply pairwise_sum_fuel_irrelevant; [assumption | apply Nat.le_refl].
Qed.


Lemma pairwise_sum_block (a : list float) :
  (8 <= List.length a <= 128)%nat ->
  np.pairwise_sum a = np.block_sum a.
Proof.
  intros H. unfold np.pairwise_sum. rewrite pairwise_sum_fuel_eq.
  replace (List.length a <? 8)%nat with false
    by (symmetry; apply Nat.ltb_ge; lia).
  replace (List.length a <=? 128)%nat with true
    by (symmetry; apply Nat.leb_le; lia).
  reflexivity.
Qed.

Lemma pairwise_sum_split (a : list float) :
  (128 < List.length a)%nat ->
  np.pairwise_sum a
  = F64.add
      (np.pairwise_sum
         (firstn (List.length a / 2 - (List.length a / 2) mod 8) a))
      (np.pairwise_sum
         (skipn (List.length a / 2 - (List.length a / 2) mod 8) a)).
Proof.
  intros H. destruct (pairwise_cut (List.length a) H) as [Hpos Hlt].
  unfold np.pairwise_sum at 1. rewrite pairwise_sum_fuel_eq.
  replace (List.length a <? 8)%nat with false
    by (symmetry; apply Nat.ltb_ge; lia).
  replace (List.length a <=? 128)%nat with false
    by (symmetry; apply Nat.leb_gt; lia).
  destruct (List.length a) as [| n] eqn:Hn; [lia |].
  cbv zeta. f_equal; apply pairwise_sum_fuel_enough;
    rewrite ?length_firstn, ?length_skipn; lia.
Qed.

(** [np.nanmean] of adjacent cells is the mean written out, and so is the
    mean of cells one row apart. *)
Lemma nanmean_mean_of (a : list float) : np.nanmean a = mean_of a.
Proof. reflexivity. Qed.



(** Eight cells of 0.1: added pairwise their sum is 0.8 and their mean
    0.1; added in index order the sum and the mean fall short of that. *)
Example nanmean_eight_tenths :
  np.nanmean (repeat Sample.f0_1 8) = Sample.f0_1 /\
  np.nanmean_strided (repeat Sample.f0_1 8) <> Sample.f0_1 /\
  F64.ltb (np.nanmean_strided (repeat Sample.f0_1 8)) Sample.f0_1 = true.
Proof.
  split; [vm_compute; reflexivity |].
  split; [vm_compute; discriminate | vm_compute; reflexivity].
Qed.

(** Two hundred cells equal to 1 are cut into 96 and 104 cells; their
    sum is 200 and their mean 1. *)
Example nanmean_two_hundred_ones :
  (200 / 2 - (200 / 2) mod 8 = 96)%nat /\
  np.sum (repeat F64.one 200) = F64.of_Z 200 /\
  np.nanmean (repeat F64.one 200) = F64.one.
Proof. split; [reflexivity |]. split; vm_compute; reflexivity. Qed.


Lemma count_not_nan_all_nan (a : list float) :
  Forall (fun c => np.isnan c = true) a -> np.count_not_nan a = 0%nat.
Proof.
  unfold np.count_not_nan.
  induction 1 as [| c a Hc _ IH]; cbn; [reflexivity |].
  rewrite Hc. cbn. exact IH.
Qed.





Section SeriesLoaded.

Variables (w : World) (data_path : string) (ds : Dataset).
Hypothesis Hfind : find_data_file w = Some data_path.
Hypothesis Hload : load_h_dataset w data_path = Ok ds.

Lemma series_lat_mean :
  series w "lat_mean"
  = Ok (Body (PDict [("type", PStr "lat_mean"); ("lat", tolist (lat ds));
                     ("H", PList (map null_unless_finite
                                      (np.nanmean_axis1 (H_index ds))))])).
Proof. unfold series. rewrite Hfind, Hload. reflexivity. Qed.

Lemma series_lon_mean :
  series w "lon_mean"
  = Ok (Body (PDict [("type", PStr "lon_mean"); ("lon", tolist (lon ds));
                     ("H", PList (map null_unless_finite
                                      (np.nanmean_axis0 (H_index ds))))])).
Proof. unfold series. rewrite Hfind, Hload. reflexivity. Qed.

Lemma series_default (agg : string) :
  agg <> "lat_mean" -> agg <> "lon_mean" ->
  series w agg = Ok (series_global (H_index ds)).
Proof.
  intros H1 H2. unfold series. rewrite Hfind, Hload. cbn.
  apply String.eqb_neq in H1, H2. rewrite H1, H2. reflexivity.
Qed.

End SeriesLoaded.

(** What the encoder accepts among the bodies of the handlers. *)
Lemma json_compliant_list (l : list pyval) :
  json_compliant (PList l) = forallb json_compliant l.
Proof. reflexivity. Qed.

Lemma json_compliant_dict (d : list (string * pyval)) :
  json_compliant (PDict d) = forallb (fun kv => json_compliant (snd kv)) d.
Proof. reflexivity. Qed.

Lemma json_compliant_tolist (a : list float) :
  json_compliant (tolist a) = forallb np.isfinite a.
Proof.
  unfold tolist. rewrite json_compliant_list.
  induction a as [| x a IH]; [reflexivity |].
  cbn [map forallb]. rewrite IH. reflexivity.
Qed.

Lemma json_compliant_nulls (vals : list float) :
  json_compliant (PList (map null_unless_finite vals)) = true.
Proof.
  rewrite json_compliant_list.
  induction vals as [| v vals IH]; [reflexivity |].
  cbn [map forallb]. rewrite IH, andb_true_r.
  unfold null_unless_finite.
  destruct (np.isfinite v) eqn:Hv; cbn [negb json_compliant];
    [exact Hv | reflexivity].
Qed.

Lemma json_compliant_ints (l : list Z) :
  json_compliant (PList (map PInt l)) = true.
Proof.
  rewrite json_compliant_list.
  induction l as [| x l IH]; [reflexivity | exact IH].
Qed.

Lemma series_lat_mean_status
  (w : World) (p : string) (ds : Dataset) :
  find_data_file w = Some p -> load_h_dataset w p = Ok ds ->
  http_status (series w "lat_mean")
  = (if forallb np.isfinite (lat ds) then 200 else 500)%Z.
Proof.
  intros Hfind Hload. rewrite (series_lat_mean w p ds Hfind Hload).
  rewrite http_status_body, json_compliant_dict. cbn [forallb snd].
  rewrite json_compliant_nulls, json_compliant_tolist.
  cbn [json_compliant andb]. rewrite andb_true_r. reflexivity.
Qed.

Lemma series_lon_mean_status
  (w : World) (p : string) (ds : Dataset) :
  find_data_file w = Some p -> load_h_dataset w p = Ok ds ->
  http_status (series w "lon_mean")
  = (if forallb np.isfinite (lon ds) then 200 else 500)%Z.
Proof.
  intros Hfind Hload. rewrite (series_lon_mean w p ds Hfind Hload).
  rewrite http_status_body, json_compliant_dict. cbn [forallb snd].
  rewrite json_compliant_nulls, json_compliant_tolist.
  cbn [json_compliant andb]. rewrite andb_true_r. reflexivity.
Qed.

(** C5.  Every aggregation name other than ["lat_mean"] and ["lon_mean"],
    recognised or not, gets from [/series] exactly the answer that
    ["global"] gets; with a dataset found and loaded that answer is the
    histogram, not a rejection. *)
Theorem series_unknown_agg_is_global (w : World) (agg : string) :
  agg <> "lat_mean" -> agg <> "lon_mean" ->
  series w agg = series w "global" /\
  forall p ds, find_data_file w = Some p -> load_h_dataset w p = Ok ds ->
               series w agg = Ok (series_global (H_index ds)).
Proof.
  intros H1 H2. split.
  - unfold series. apply String.eqb_neq in H1, H2. rewrite H1, H2.
    reflexivity.
  - intros p ds Hfind Hload. apply (series_default w p ds Hfind Hload agg H1 H2).
Qed.

Lemma series_unknown_agg_is_global_witness :
  series Sample.world "median" = series Sample.world "global".
Proof.
  apply (series_unknown_agg_is_global Sample.world "median");
    intros Heq; discriminate Heq.
Defined.



(** The example of the specification: the row means of the sample grid are
    0.2 (the NaN cell left out) and the binary64 mean of 0.8 and 0.4. *)
Example series_lat_mean_sample :
  field "H" (Body (PDict [("H", PList (map null_unless_finite
                                           (np.nanmean_axis1 Sample.grid)))]))
  = Some (PList [PFloat Sample.f0_2;
                 PFloat (F64.div (F64.add Sample.f0_8 Sample.f0_4) (F64.of_Z 2))]).
Proof. reflexivity. Qed.

(** A row of NaN cells only is reported as null. *)
Example series_all_nan_row :
  series Sample.all_nan "lat_mean"
  = Ok (Body (PDict [("type", PStr "lat_mean"); ("lat", tolist [Sample.f10]);
                     ("H", PList [PNone])])).
Proof. reflexivity. Qed.

(* ===================================================================== *)
(** * Values that are not finite *)
(* ===================================================================== *)







(** Infinite cells: the cell itself is reported as NaN by [/predict], and
    the means of its row and of its column, which are infinite, as null. *)
Example predict_infinite_cell :
  predict Sample.with_inf Sample.f10 Sample.f100
  = Ok (Body (PDict [("lat", PFloat Sample.f10); ("lon", PFloat Sample.f100);
                     ("H", PFloat F64.nan); ("i", PInt 0); ("j", PInt 0)])).
Proof. reflexivity. Qed.

Example series_infinite_means :
  np.nanmean_axis1 Sample.with_inf_grid = [Sample.inf; Sample.neg_inf] /\
  np.nanmean_axis0 Sample.with_inf_grid = [Sample.inf; Sample.neg_inf] /\
  field "H" (Body (PDict [("H", PList (map null_unless_finite
                                           (np.nanmean_axis1 Sample.with_inf_grid)))]))
  = Some (PList [PNone; PNone]).
Proof. repeat split. Qed.

(* ===================================================================== *)
(** * [/analyze]: the statistics *)
(* ===================================================================== *)

Lemma fmin_cases (x y : float) :
  (np.fmin x y = x \/ np.fmin x y = y) /\
  (np.isnan (np.fmin x y) = true -> np.isnan x = true /\ np.isnan y = true) /\
  (np.isnan x = false -> F64.leb (np.fmin x y) x = true) /\
  (np.isnan y = false -> F64.leb (np.fmin x y) y = true).
Proof.
  unfold np.fmin.
  destruct (F64.leb x y) eqn:Hle; cbn [orb].
  - destruct (leb_notnan x y Hle) as [Hx Hy].
    split; [auto |]. split; [congruence |]. split; [| auto].
    intros _. apply leb_refl, Hx.
  - destruct (np.isnan y) eqn:Hy.
    + split; [auto |]. split; [auto |]. split; [| congruence].
      intros Hx. apply leb_refl, Hx.
    + split; [auto |]. split; [congruence |]. split.
      * intros Hx. destruct (leb_total x y Hx Hy); congruence.
      * intros _. apply leb_refl, Hy.
Qed.

Lemma fmax_cases (x y : float) :
  (np.fmax x y = x \/ np.fmax x y = y) /\
  (np.isnan (np.fmax x y) = true -> np.isnan x = true /\ np.isnan y = true) /\
  (np.isnan x = false -> F64.leb x (np.fmax x y) = true) /\
  (np.isnan y = false -> F64.leb y (np.fmax x y) = true).
Proof.
  unfold np.fmax, F64.geb.
  destruct (F64.leb y x) eqn:Hle; cbn [orb].
  - destruct (leb_notnan y x Hle) as [Hy Hx].
    split; [auto |]. split; [congruence |]. split; [| auto].
    intros _. apply leb_refl, Hx.
  - destruct (np.isnan y) eqn:Hy.
    + split; [auto |]. split; [auto |]. split; [| congruence].
      intros Hx. apply leb_refl, Hx.
    + split; [auto |]. split; [congruence |]. split.
      * intros Hx. destruct (leb_total x y Hx Hy); congruence.
      * intros _. apply leb_refl, Hy.
Qed.

(** The reduction with [fmin] returns one of the cells; it is NaN only if
    every cell is, and otherwise it is below every cell that is not NaN. *)
Lemma fold_fmin_spec (l : list float) :
  forall x,
    let r := fold_left np.fmin l x in
    In r (x :: l) /\
    (np.isnan r = true -> Forall (fun c => np.isnan c = true) (x :: l)) /\
    (forall c, In c (x :: l) -> np.isnan c = false -> F64.leb r c = true).
Proof.
  induction l as [| y l IH]; intros x; cbn [fold_left].
  - split; [left; reflexivity |]. split.
    + intros Hr. constructor; [assumption | constructor].
    + intros c [<- | []] Hc. apply leb_refl, Hc.
  - specialize (IH (np.fmin x y)). cbv zeta in IH |- *.
    set (r := fold_left np.fmin l (np.fmin x y)) in *.
    destruct IH as (Hin & Hnan & Hle).
    destruct (fmin_cases x y) as (Hxy & Hn & Hx & Hy).
    split; [| split].
    + destruct Hin as [Hr | Hr].
      * destruct Hxy as [E | E]; rewrite E in Hr;
          [left | right; left]; assumption.
      * right. right. assumption.
    + intros Hr. specialize (Hnan Hr). inversion Hnan as [| ? ? Hm Hl]; subst.
      destruct (Hn Hm). repeat constructor; assumption.
    + intros c [<- | [<- | Hc]] Hcn.
      * specialize (Hx Hcn). destruct (leb_notnan _ _ Hx) as [Hm _].
        apply leb_trans with (np.fmin x y); [| assumption].
        apply Hle; [left; reflexivity | assumption].
      * specialize (Hy Hcn). destruct (leb_notnan _ _ Hy) as [Hm _].
        apply leb_trans with (np.fmin x y); [| assumption].
        apply Hle; [left; reflexivity | assumption].
      * apply Hle; [right; assumption | assumption].
Qed.

Lemma fold_fmax_spec (l : list float) :
  forall x,
    let r := fold_left np.fmax l x in
    In r (x :: l) /\
    (np.isnan r = true -> Forall (fun c => np.isnan c = true) (x :: l)) /\
    (forall c, In c (x :: l) -> np.isnan c = false -> F64.leb c r = true).
Proof.
  induction l as [| y l IH]; intros x; cbn [fold_left].
  - split; [left; reflexivity |]. split.
    + intros Hr. constructor; [assumption | constructor].
    + intros c [<- | []] Hc. apply leb_refl, Hc.
  - specialize (IH (np.fmax x y)). cbv zeta in IH |- *.
    set (r := fold_left np.fmax l (np.fmax x y)) in *.
    destruct IH as (Hin & Hnan & Hle).
    destruct (fmax_cases x y) as (Hxy & Hn & Hx & Hy).
    split; [| split].
    + destruct Hin as [Hr | Hr].
      * destruct Hxy as [E | E]; rewrite E in Hr;
          [left | right; left]; assumption.
      * right. right. assumption.
    + intros Hr. specialize (Hnan Hr). inversion Hnan as [| ? ? Hm Hl]; subst.
      destruct (Hn Hm). repeat constructor; assumption.
    + intros c [<- | [<- | Hc]] Hcn.
      * specialize (Hx Hcn). destruct (leb_notnan _ _ Hx) as [_ Hm].
        apply leb_trans with (np.fmax x y); [assumption |].
        apply Hle; [left; reflexivity | assumption].
      * specialize (Hy Hcn). destruct (leb_notnan _ _ Hy) as [_ Hm].
        apply leb_trans with (np.fmax x y); [assumption |].
        apply Hle; [left; reflexivity | assumption].
      * apply Hle; [right; assumption | assumption].
Qed.



(** Eight cells equal to 0.1: added pairwise they give the mean 0.1. *)
Example analyze_eight_tenths :
  analyze Sample.eights None
  = Ok (analyze_body Sample.data_path Sample.f0_1 Sample.f0_1 Sample.f0_1).
Proof. vm_compute. reflexivity. Qed.


(* ===================================================================== *)
(** * [/series]: the histogram *)
(* ===================================================================== *)

Lemma linspace_edges10 : np.linspace F64.zero F64.one 11 = edges10.
Proof. vm_compute. reflexivity. Qed.

Lemma edges10_ascending : ascending edges10 = true.
Proof. vm_compute. reflexivity. Qed.

Lemma list_sum_map_add (A : Type) (f g : A -> nat) (ks : list A) :
  list_sum (map (fun k => (f k + g k)%nat) ks)
  = (list_sum (map f ks) + list_sum (map g ks))%nat.
Proof.
  unfold list_sum. induction ks as [| k ks IH]; cbn in *; [reflexivity | lia].
Qed.

Lemma list_sum_map_zero (A : Type) (ks : list A) :
  list_sum (map (fun _ => 0%nat) ks) = 0%nat.
Proof.
  unfold list_sum. induction ks as [| k ks IH]; cbn; [reflexivity | assumption].
Qed.

(** When every value falls in exactly one of the bins, the counts of the
    bins add up to the number of values. *)
Lemma counts_add_up (A : Type) (p : nat -> A -> bool) (ks : list nat)
  (l : list A) :
  (forall v, In v l -> list_sum (map (fun k => b2n (p k v)) ks) = 1%nat) ->
  list_sum (map (fun k => List.length (filter (p k) l)) ks) = List.length l.
Proof.
  induction l as [| v l IH]; intros Hone.
  - cbn. apply list_sum_map_zero.
  - transitivity
      (list_sum (map (fun k => (b2n (p k v) + List.length (filter (p k) l))%nat)
                     ks)).
    + f_equal. apply map_ext. intros k. cbn. destruct (p k v); reflexivity.
    + rewrite list_sum_map_add, Hone by (left; reflexivity).
      rewrite IH by (intros u Hu; apply Hone; right; assumption).
      reflexivity.
Qed.

Lemma sumZ_of_nat (f : nat -> nat) (ks : list nat) :
  sumZ (map (fun k => Z.of_nat (f k)) ks) = Z.of_nat (list_sum (map f ks)).
Proof.
  unfold list_sum, sumZ.
  induction ks as [| k ks IH]; cbn [map fold_right]; [reflexivity |].
  rewrite IH. lia.
Qed.

Ltac chain_contradiction :=
  match goal with
  | H : true = true -> false = true |- _ => discriminate (H eq_refl)
  end.

(** The ten bins part the range: a value of [[0, 1]] is in exactly one. *)
Lemma bins_part_range (v : float) :
  np.in_range F64.zero F64.one v = true ->
  list_sum (map (fun k => b2n (np.in_bin edges10 10 k v)) (seq 0 10)) = 1%nat.
Proof.
  intros Hin. apply andb_true_iff in Hin as [H0 H1]. unfold F64.geb in H0.
  assert (Hv : F64.isnan v = false) by (apply (leb_notnan _ _ H1)).
  assert (Hstep : forall a b, F64.leb a b = true ->
                              F64.leb b v = true -> F64.leb a v = true).
  { intros a b Hab Hbv. apply leb_trans with b; assumption. }
  unfold np.in_bin, edges10, F64.zero, F64.one in *.
  cbn [seq map nth Nat.eqb].
  rewrite !(ltb_negb_leb v _ Hv) by reflexivity. rewrite H0, H1.
  repeat match goal with
         | |- context [F64.leb (S754_finite ?s ?m ?e) v] =>
             let b := fresh "b" in
             set (b := F64.leb (S754_finite s m e) v) in *
         end.
  assert (M1 : b0 = true -> b = true) by (apply Hstep; reflexivity).
  assert (M2 : b1 = true -> b0 = true) by (apply Hstep; reflexivity).
  assert (M3 : b2 = true -> b1 = true) by (apply Hstep; reflexivity).
  assert (M4 : b3 = true -> b2 = true) by (apply Hstep; reflexivity).
  assert (M5 : b4 = true -> b3 = true) by (apply Hstep; reflexivity).
  assert (M6 : b5 = true -> b4 = true) by (apply Hstep; reflexivity).
  assert (M7 : b6 = true -> b5 = true) by (apply Hstep; reflexivity).
  assert (M8 : b7 = true -> b6 = true) by (apply Hstep; reflexivity).
  clearbody b b0 b1 b2 b3 b4 b5 b6 b7.
  destruct b7, b6, b5, b4, b3, b2, b1, b0, b;
    first [reflexivity | chain_contradiction].
Qed.

Lemma series_global_empty (H : ndarray2) :
  finite_cells H = [] ->
  series_global H
  = Body (PDict [("type", PStr "global"); ("bins", PList []);
                 ("counts", PList [])]).
Proof.
  unfold finite_cells, series_global. intros ->. reflexivity.
Qed.

Lemma series_global_histogram (H : ndarray2) :
  finite_cells H <> [] ->
  series_global H
  = Body (PDict [("type", PStr "global"); ("bins", tolist left_edges10);
                 ("counts", PList (map PInt (bin_counts H)))]).
Proof.
  unfold bin_counts, cells_in_range, finite_cells, series_global.
  destruct (filter np.isfinite (np.flatten H)) as [| x l] eqn:E;
    [congruence | intros _].
  cbn [List.length Nat.eqb]. unfold np.histogram.
  rewrite linspace_edges10. reflexivity.
Qed.

Lemma bin_counts_sum (H : ndarray2) :
  sumZ (bin_counts H) = Z.of_nat (List.length (cells_in_range H)).
Proof.
  unfold bin_counts.
  rewrite (sumZ_of_nat
             (fun k => List.length (filter (np.in_bin edges10 10 k)
                                            (cells_in_range H)))).
  f_equal. apply counts_add_up.
  intros v Hv. apply bins_part_range.
  unfold cells_in_range in Hv. apply filter_In in Hv. tauto.
Qed.

(** C2, as the code has it.  With a dataset found and loaded, the default
    aggregation of [/series] answers, for a grid with at least one finite
    cell, with the ten left edges of ten equal bins over [[0, 1]] in
    ascending order and with ten counts; count [k] is the number of finite
    cells within [[0, 1]] that fall in bin [k], the counts add up to the
    number of finite cells within [[0, 1]], and a cell outside that range
    is counted in no bin.  For a grid without any finite cell the answer
    has no bins and no counts. *)
Theorem series_global_bins_and_counts
  (w : World) (data_path : string) (ds : Dataset) :
  find_data_file w = Some data_path ->
  load_h_dataset w data_path = Ok ds ->
  (finite_cells (H_index ds) = [] ->
   series w "global"
   = Ok (Body (PDict [("type", PStr "global"); ("bins", PList []);
                      ("counts", PList [])]))) /\
  (finite_cells (H_index ds) <> [] ->
   exists counts,
     series w "global"
     = Ok (Body (PDict [("type", PStr "global"); ("bins", tolist left_edges10);
                        ("counts", PList (map PInt counts))])) /\
     List.length counts = 10%nat /\
     sumZ counts = Z.of_nat (List.length (cells_in_range (H_index ds))) /\
     (forall k, (k < 10)%nat ->
        nth_error counts k
        = Some (Z.of_nat (List.length
                            (filter (np.in_bin edges10 10 k)
                                    (cells_in_range (H_index ds)))))) /\
     (forall v k, np.in_range F64.zero F64.one v = false ->
        ~ In v (filter (np.in_bin edges10 10 k)
                       (cells_in_range (H_index ds))))) /\
  left_edges10 = removelast (np.linspace F64.zero F64.one 11) /\
  List.length left_edges10 = 10%nat /\
  ascending left_edges10 = true.
Proof.
  intros Hfind Hload.
  assert (Hs : series w "global" = Ok (series_global (H_index ds))).
  { apply (series_default w data_path ds Hfind Hload);
      intros Heq; discriminate Heq. }
  split; [| split; [| split; [| split]]].
  - intros He. rewrite Hs, (series_global_empty _ He). reflexivity.
  - intros Hne. exists (bin_counts (H_index ds)).
    split; [rewrite Hs, (series_global_histogram _ Hne); reflexivity |].
    split; [reflexivity |].
    split; [apply bin_counts_sum |].
    split.
    + intros k Hk. unfold bin_counts.
      apply (map_nth_error
               (fun k => Z.of_nat (List.length
                                     (filter (np.in_bin edges10 10 k)
                                             (cells_in_range (H_index ds)))))).
      rewrite nth_error_seq.
      replace (k <? 10)%nat with true by (symmetry; apply Nat.ltb_lt; lia).
      reflexivity.
    + intros v k Hout Hv. apply filter_In in Hv as [Hv _].
      unfold cells_in_range in Hv. apply filter_In in Hv as [_ Hv].
      congruence.
  - rewrite linspace_edges10. reflexivity.
  - reflexivity.
  - vm_compute. reflexivity.
Qed.

Lemma series_global_bins_and_counts_witness :
  exists counts,
    series Sample.world "global"
    = Ok (Body (PDict [("type", PStr "global"); ("bins", tolist left_edges10);
                       ("counts", PList (map PInt counts))])) /\
    sumZ counts = 3%Z.
Proof.
  destruct (series_global_bins_and_counts Sample.world Sample.data_path
              {| H_index := Sample.grid;
                 lat := [Sample.f10; Sample.f20];
                 lon := [Sample.f100; Sample.f110] |}
              eq_refl eq_refl)
    as (_ & Hne & _).
  destruct Hne as (counts & Hs & _ & Hsum & _).
  - discriminate.
  - exists counts. split; [assumption |]. rewrite Hsum. reflexivity.
Defined.

(** The histogram of the sample grid: 0.2 in bin 2, 0.4 in bin 4 and 0.8
    in bin 8. *)
Example series_global_sample :
  bin_counts Sample.grid = [0; 0; 1; 0; 1; 0; 0; 0; 1; 0]%Z.
Proof. vm_compute. reflexivity. Qed.

(** C2, as the claim states it, fails.  On a grid whose only cell is NaN
    the default aggregation returns no bins at all, not ten edges. *)
Lemma series_global_no_finite_cell :
  series Sample.all_nan "global"
  = Ok (Body (PDict [("type", PStr "global"); ("bins", PList []);
                     ("counts", PList [])])) /\
  ~ (exists r bins,
       series Sample.all_nan "global" = Ok r /\
       field "bins" r = Some (PList bins) /\ List.length bins = 10%nat).
Proof.
  split; [reflexivity |].
  intros (r & bins & Hr & Hb & Hlen).
  vm_compute in Hr. injection Hr as <-.
  vm_compute in Hb. injection Hb as <-. discriminate Hlen.
Qed.

(* ===================================================================== *)
(** * The CORS origins *)
(* ===================================================================== *)

Lemma chars_lstrip (s : string) (c : ascii) :
  In c (chars (pystr.lstrip s)) -> In c (chars s).
Proof.
  induction s as [| a s IH]; cbn; [trivial |].
  destruct (pystr.isspace a); cbn; auto.
Qed.

Lemma chars_rstrip (s : string) (c : ascii) :
  In c (chars (pystr.rstrip s)) -> In c (chars s).
Proof.
  induction s as [| a s IH]; cbn; [trivial |].
  destruct (pystr.rstrip s) as [| b r] eqn:E.
  - destruct (pystr.isspace a); cbn; [intros [] | intros [H | []]; auto].
  - cbn in *. intros [H | H]; auto.
Qed.

Lemma chars_strip (s : string) (c : ascii) :
  In c (chars (pystr.strip s)) -> In c (chars s).
Proof. intros H. apply chars_lstrip, chars_rstrip, H. Qed.

(** What [lstrip] leaves starts with a character that is not white space. *)
Lemma lstrip_head (s t : string) (c : ascii) :
  pystr.lstrip s = String c t -> pystr.isspace c = false.
Proof.
  induction s as [| a s IH]; cbn; [discriminate |].
  destruct (pystr.isspace a) eqn:Ha; [assumption |].
  intros [= <- _]. assumption.
Qed.

Lemma lstrip_fixed (c : ascii) (t : string) :
  pystr.isspace c = false -> pystr.lstrip (String c t) = String c t.
Proof. intros H. cbn. rewrite H. reflexivity. Qed.

(** [rstrip] keeps the first character of what it does not empty. *)
Lemma rstrip_head (s t : string) (c : ascii) :
  pystr.rstrip s = String c t -> exists s', s = String c s'.
Proof.
  destruct s as [| a s]; cbn; [discriminate |].
  destruct (pystr.rstrip s); [destruct (pystr.isspace a) |];
    intros [= <- _]; eauto.
Qed.

Lemma rstrip_idem (s : string) :
  pystr.rstrip (pystr.rstrip s) = pystr.rstrip s.
Proof.
  induction s as [| a s IH]; cbn; [reflexivity |].
  destruct (pystr.rstrip s) as [| b r] eqn:E.
  - destruct (pystr.isspace a) eqn:Ha; cbn; [reflexivity |].
    rewrite Ha. reflexivity.
  - change (pystr.rstrip (String a (String b r)))
      with (match pystr.rstrip (String b r) with
            | EmptyString =>
                if pystr.isspace a then EmptyString else String a EmptyString
            | String c r0 => String a (String c r0)
            end).
    rewrite IH. reflexivity.
Qed.

Lemma strip_idem (s : string) : pystr.strip (pystr.strip s) = pystr.strip s.
Proof.
  unfold pystr.strip.
  destruct (pystr.rstrip (pystr.lstrip s)) as [| c t] eqn:E; [reflexivity |].
  destruct (rstrip_head _ _ _ E) as [s' Hs'].
  rewrite (lstrip_fixed c t (lstrip_head _ _ _ Hs')).
  rewrite <- E. apply rstrip_idem.
Qed.

Lemma split_not_nil (sep : ascii) (s : string) : pystr.split sep s <> [].
Proof.
  induction s as [| a s IH]; cbn; [discriminate |].
  destruct (Ascii.eqb a sep); [discriminate |].
  destruct (pystr.split sep s); discriminate.
Qed.

(** No piece of a split holds the separator, and every character that is
    not the separator is in a piece. *)
Lemma split_pieces (sep : ascii) (s : string) :
  (forall p, In p (pystr.split sep s) ->
             ~ In sep (chars p) /\ forall c, In c (chars p) -> In c (chars s)) /\
  (forall c, In c (chars s) ->
             c = sep \/ exists p, In p (pystr.split sep s) /\ In c (chars p)).
Proof.
  induction s as [| a s [IH1 IH2]]; cbn.
  - split.
    + intros p [<- | []]. cbn. tauto.
    + intros c [].
  - destruct (Ascii.eqb_spec a sep) as [-> | Hne].
    + split.
      * intros p [<- | Hp]; [cbn; tauto |].
        destruct (IH1 p Hp) as [H1 H2]. split; [assumption | auto].
      * intros c [<- | Hc]; [auto |].
        destruct (IH2 c Hc) as [-> | (p & Hp & Hcp)]; [auto |].
        right. exists p. cbn. auto.
    + destruct (pystr.split sep s) as [| q qs] eqn:E;
        [destruct (split_not_nil sep s E) |].
      split.
      * intros p [<- | Hp].
        -- destruct (IH1 q (or_introl eq_refl)) as [H1 H2]. cbn. split.
           ++ intros [H | H]; [congruence | auto].
           ++ intros c [<- | Hc]; auto.
        -- destruct (IH1 p (or_intror Hp)) as [H1 H2]. split; auto.
      * intros c [<- | Hc].
        -- right. exists (String a q). cbn. auto.
        -- destruct (IH2 c Hc) as [-> | (p & [<- | Hp] & Hcp)]; [auto | |].
           ++ right. exists (String a q). cbn. auto.
           ++ right. exists p. cbn. auto.
Qed.

Lemma split_sep_free (sep : ascii) (x : string) :
  ~ In sep (chars x) -> pystr.split sep x = [x].
Proof.
  induction x as [| a x IH]; cbn; [reflexivity |].
  intros Hx. destruct (Ascii.eqb_spec a sep) as [-> | Hne]; [tauto |].
  rewrite IH by tauto. reflexivity.
Qed.

Lemma split_app (sep : ascii) (x rest : string) :
  ~ In sep (chars x) ->
  pystr.split sep (x ++ String sep rest) = x :: pystr.split sep rest.
Proof.
  induction x as [| a x IH]; cbn.
  - intros _. rewrite Ascii.eqb_refl. reflexivity.
  - intros Hx. destruct (Ascii.eqb_spec a sep) as [-> | Hne]; [tauto |].
    rewrite IH by tauto. reflexivity.
Qed.

(** Splitting a join gives the pieces back. *)
Lemma split_concat (sep : ascii) (os : list string) :
  os <> [] -> Forall (fun o => ~ In sep (chars o)) os ->
  pystr.split sep (String.concat (String sep EmptyString) os) = os.
Proof.
  induction os as [| o os IH]; [congruence | intros _ Hall].
  inversion Hall as [| ? ? Ho Hos]; subst.
  destruct os as [| o' os'].
  - cbn. apply split_sep_free, Ho.
  - change (String.concat (String sep EmptyString) (o :: o' :: os'))
      with (o ++ String sep (String.concat (String sep EmptyString) (o' :: os'))).
    rewrite split_app by assumption.
    rewrite IH by (congruence || assumption). reflexivity.
Qed.

Lemma lstrip_blank (s : string) :
  pystr.lstrip s = "" <-> Forall (fun c => pystr.isspace c = true) (chars s).
Proof.
  induction s as [| a s IH]; cbn.
  - split; [constructor | reflexivity].
  - destruct (pystr.isspace a) eqn:Ha.
    + rewrite IH. split; [constructor; assumption |].
      intros H. inversion H; assumption.
    + split; [discriminate |]. intros H. inversion H; congruence.
Qed.

Lemma rstrip_blank (s : string) :
  pystr.rstrip s = "" <-> Forall (fun c => pystr.isspace c = true) (chars s).
Proof.
  induction s as [| a s IH]; cbn.
  - split; [constructor | reflexivity].
  - destruct (pystr.rstrip s) as [| b r] eqn:E.
    + destruct (pystr.isspace a) eqn:Ha.
      * split; [| reflexivity]. intros _. constructor; [assumption |].
        apply IH. reflexivity.
      * split; [discriminate |]. intros H. inversion H; congruence.
    + split; [discriminate |]. intros H. inversion H as [| ? ? _ Hs]; subst.
      apply IH in Hs. discriminate Hs.
Qed.

Lemma strip_blank (s : string) :
  pystr.strip s = "" <-> Forall (fun c => pystr.isspace c = true) (chars s).
Proof.
  unfold pystr.strip. rewrite rstrip_blank. split.
  - intros H. apply lstrip_blank.
    destruct (pystr.lstrip s) as [| c t] eqn:E; [reflexivity |].
    inversion H as [| ? ? Hc _]; subst.
    rewrite (lstrip_head _ _ _ E) in Hc. discriminate Hc.
  - intros H. apply lstrip_blank in H. rewrite H. constructor.
Qed.

Lemma nonempty_false (s : string) : pystr.nonempty s = false <-> s = "".
Proof. destruct s; cbn; split; congruence. Qed.

(** X1.  Every origin handed to the CORS middleware is clean: it is not
    empty, has no white space at either end and holds no comma, whatever
    the environment variable is. *)
Theorem allow_origins_clean (w : World) (o : string) :
  In o (allow_origins w) -> clean_origin o.
Proof.
  unfold allow_origins.
  destruct (pystr.nonempty (cors_env w)).
  - intros Ho. apply in_map_iff in Ho as (p & <- & Hp).
    apply filter_In in Hp as [Hp Hne].
    split; [| split].
    + intros E. rewrite E in Hne. discriminate Hne.
    + apply strip_idem.
    + intros Hc. apply chars_strip in Hc.
      destruct (split_pieces ","%char (cors_env w)) as [H1 _].
      destruct (H1 p Hp) as [Hfree _]. tauto.
  - intros [<- | []]. split; [discriminate |]. split; [reflexivity |].
    cbn. intros [H | []]. discriminate H.
Qed.

(** X2.  Round trip: when the variable is set to a non-empty list of
    clean origins joined with commas, the middleware gets exactly that
    list, in that order. *)
Theorem allow_origins_round_trip (w : World) (os : list string) :
  os <> [] -> Forall clean_origin os ->
  getenv w "CORS_ALLOW_ORIGINS" = Some (String.concat "," os) ->
  allow_origins w = os.
Proof.
  intros Hne Hall Henv. unfold allow_origins, cors_env. rewrite Henv.
  assert (Hnonempty : pystr.nonempty (String.concat "," os) = true).
  { destruct os as [| o os']; [congruence |].
    inversion Hall as [| ? ? (Ho & _) _]; subst.
    destruct o as [| c o]; [congruence |].
    destruct os'; reflexivity. }
  rewrite Hnonempty.
  rewrite (split_concat ","%char os Hne)
    by (eapply Forall_impl; [| exact Hall]; intros o (_ & _ & H); exact H).
  clear Hne Henv Hnonempty.
  induction Hall as [| o os (Ho & Hs & _) _ IH]; [reflexivity |].
  cbn [filter]. rewrite Hs.
  destruct o as [| c o]; [congruence |].
  cbn [pystr.nonempty map]. rewrite Hs, IH. reflexivity.
Qed.

Lemma allow_origins_round_trip_witness :
  allow_origins (with_env Sample.world "CORS_ALLOW_ORIGINS"
                   (Some "https://a.example,https://b.example"))
  = ["https://a.example"; "https://b.example"].
Proof.
  apply (allow_origins_round_trip
           (with_env Sample.world "CORS_ALLOW_ORIGINS"
              (Some "https://a.example,https://b.example"))
           ["https://a.example"; "https://b.example"]).
  - discriminate.
  - repeat constructor; try discriminate;
      cbn; intros H; repeat destruct H as [H | H]; try discriminate H;
      exact H.
  - reflexivity.
Defined.

(** X3.  The middleware gets no origin at all, so that every cross-origin
    request is refused, exactly when the variable is set to a non-empty
    string made of commas and white space only; unset or empty, it gets
    ["*"]. *)
Theorem allow_origins_empty_iff (w : World) :
  (allow_origins w = [] <->
   cors_env w <> "" /\
   Forall (fun c => c = ","%char \/ pystr.isspace c = true)
          (chars (cors_env w))) /\
  (getenv w "CORS_ALLOW_ORIGINS" = None \/
   getenv w "CORS_ALLOW_ORIGINS" = Some "" -> allow_origins w = ["*"]).
Proof.
  split.
  - unfold allow_origins.
    destruct (split_pieces ","%char (cors_env w)) as [H1 H2].
    destruct (pystr.nonempty (cors_env w)) eqn:Hne.
    + assert (Hv : cors_env w <> "")
        by (intros E; rewrite E in Hne; discriminate Hne).
      split.
      * intros Hnil. split; [assumption |].
        apply Forall_forall. intros c Hc.
        destruct (H2 c Hc) as [-> | (p & Hp & Hcp)]; [auto |]. right.
        assert (Hblank : pystr.strip p = "").
        { apply nonempty_false.
          destruct (pystr.nonempty (pystr.strip p)) eqn:Hp'; [| reflexivity].
          assert (Hin : In (pystr.strip p)
                           (map pystr.strip
                              (filter (fun o => pystr.nonempty (pystr.strip o))
                                      (pystr.split "," (cors_env w))))).
          { apply in_map, filter_In. auto. }
          rewrite Hnil in Hin. destruct Hin. }
        apply strip_blank in Hblank. rewrite Forall_forall in Hblank. auto.
      * intros [_ Hall].
        destruct (filter (fun o => pystr.nonempty (pystr.strip o))
                         (pystr.split "," (cors_env w))) as [| p ps] eqn:E;
          [reflexivity | exfalso].
        assert (Hp : In p (filter (fun o => pystr.nonempty (pystr.strip o))
                                  (pystr.split "," (cors_env w))))
          by (rewrite E; left; reflexivity).
        apply filter_In in Hp as [Hp Hne'].
        destruct (H1 p Hp) as [Hfree Hsub].
        assert (Hblank : pystr.strip p = "").
        { apply strip_blank, Forall_forall. intros c Hc.
          rewrite Forall_forall in Hall.
          destruct (Hall c (Hsub c Hc)) as [-> | H]; [tauto | assumption]. }
        rewrite Hblank in Hne'. discriminate Hne'.
    + apply nonempty_false in Hne. split; [discriminate |].
      intros [Hv _]. congruence.
  - unfold allow_origins, cors_env. intros [-> | ->]; reflexivity.
Qed.

Lemma allow_origins_empty_iff_witness :
  allow_origins (with_env Sample.world "CORS_ALLOW_ORIGINS" (Some " , ,"))
  = [].
Proof.
  apply (allow_origins_empty_iff
           (with_env Sample.world "CORS_ALLOW_ORIGINS" (Some " , ,"))).
  split; [discriminate |].
  repeat (apply Forall_cons;
          [first [left; reflexivity | right; reflexivity] |]).
  apply Forall_nil.
Defined.

Lemma allow_origins_clean_witness :
  clean_origin "https://b.example".
Proof.
  apply (allow_origins_clean
           (with_env Sample.world "CORS_ALLOW_ORIGINS"
              (Some " https://a.example , https://b.example ,, "))
           "https://b.example").
  right. left. reflexivity.
Defined.

(* ===================================================================== *)
(** * Finding and loading the dataset *)
(* ===================================================================== *)

(** What [find] returns is the first element that passes the test. *)
Lemma find_first (A : Type) (f : A -> bool) (l : list A) (x : A) :
  find f l = Some x <->
  exists k, nth_error l k = Some x /\ f x = true /\
            forall m c, (m < k)%nat -> nth_error l m = Some c -> f c = false.
Proof.
  induction l as [| a l IH]; cbn.
  - split; [discriminate | intros ([| k] & Hk & _); discriminate Hk].
  - destruct (f a) eqn:Ha.
    + split.
      * intros [= <-]. exists 0%nat. repeat split; trivial. intros m c Hm. lia.
      * intros ([| k] & Hk & Hx & Hfirst); [cbn in Hk; congruence |].
        specialize (Hfirst 0%nat a (Nat.lt_0_succ k) eq_refl). congruence.
    + rewrite IH. split.
      * intros (k & Hk & Hx & Hfirst). exists (S k). repeat split; trivial.
        intros [| m] c Hm Hc; cbn in Hc; [congruence |].
        apply (Hfirst m c); [lia | assumption].
      * intros ([| k] & Hk & Hx & Hfirst); cbn in Hk; [congruence |].
        exists k. repeat split; trivial.
        intros m c Hm Hc. apply (Hfirst (S m) c); [lia | assumption].
Qed.

Lemma find_data_file_override (w : World) (p : string) :
  usable_override w = Some p ->
  find_data_file w = Some (path_abspath w p).
Proof.
  unfold usable_override, find_data_file.
  destruct (getenv w "MAZI_DATA_PATH") as [q |]; [| discriminate].
  destruct (truthy (Some q) && path_exists w q); [| discriminate].
  intros [= ->]. reflexivity.
Qed.

Lemma find_data_file_candidates (w : World) :
  usable_override w = None ->
  find_data_file w = find (path_exists w) (candidates w).
Proof.
  unfold usable_override, find_data_file.
  destruct (getenv w "MAZI_DATA_PATH") as [q |]; [| reflexivity].
  destruct (truthy (Some q) && path_exists w q); [discriminate | reflexivity].
Qed.

(** X4.  [find_data_file] finds nothing exactly when the override cannot be
    used (the variable is unset, empty, or names nothing that exists) and
    none of the six candidate paths exists. *)
Theorem find_data_file_none_iff (w : World) :
  find_data_file w = None <->
  usable_override w = None /\
  Forall (fun c => path_exists w c = false) (candidates w).
Proof.
  destruct (usable_override w) as [p |] eqn:Ho.
  - rewrite (find_data_file_override w p Ho).
    split; [discriminate | intros [H _]; discriminate H].
  - rewrite (find_data_file_candidates w Ho). split.
    + intros Hnone. split; [reflexivity |].
      apply Forall_forall. intros c Hc. apply (find_none _ _ Hnone c Hc).
    + intros [_ Hall]. rewrite Forall_forall in Hall.
      destruct (find (path_exists w) (candidates w)) as [c |] eqn:E;
        [| reflexivity].
      apply find_some in E as [Hin Hex]. rewrite (Hall c Hin) in Hex.
      discriminate Hex.
Qed.

(** X5.  A usable override wins over every candidate: the answer is its
    absolute path, whatever files exist elsewhere.  Without one, the answer
    is the first candidate that exists, in the order of the list: it
    exists and every candidate before it does not. *)
Theorem find_data_file_priority (w : World) (q : string) :
  find_data_file w = Some q ->
  (exists p, usable_override w = Some p /\ q = path_abspath w p) \/
  (usable_override w = None /\
   exists k, nth_error (candidates w) k = Some q /\ (k < 6)%nat /\
             path_exists w q = true /\
             forall m c, (m < k)%nat -> nth_error (candidates w) m = Some c ->
                         path_exists w c = false).
Proof.
  destruct (usable_override w) as [p |] eqn:Ho.
  - rewrite (find_data_file_override w p Ho). intros [= <-]. left. eauto.
  - rewrite (find_data_file_candidates w Ho). intros Hq. right.
    split; [reflexivity |].
    apply find_first in Hq as (k & Hk & Hex & Hfirst).
    exists k. repeat split; trivial.
    apply (nth_error_Some (candidates w) k). congruence.
Qed.

Lemma find_data_file_priority_witness :
  (exists p, usable_override Sample.world = Some p /\
             Sample.data_path = path_abspath Sample.world p) \/
  (usable_override Sample.world = None /\
   exists k, nth_error (candidates Sample.world) k = Some Sample.data_path /\
             (k < 6)%nat /\
             path_exists Sample.world Sample.data_path = true /\
             forall m c, (m < k)%nat ->
                         nth_error (candidates Sample.world) m = Some c ->
                         path_exists Sample.world c = false).
Proof.
  apply (find_data_file_priority Sample.world Sample.data_path).
  reflexivity.
Defined.

(** X6.  [load_h_dataset] succeeds exactly when the path exists and the
    file opens with the variable [H_index] and both coordinates, which it
    hands over unchanged; otherwise it raises, in this order of checks,
    [FileNotFoundError] for a path that does not exist (the file is not
    opened), the error of [open_dataset], [KeyError] for a missing
    [H_index] (whatever the coordinates), or [KeyError] for a missing
    coordinate. *)
Theorem load_h_dataset_outcomes (w : World) (path : string) :
  (forall ds,
      load_h_dataset w path = Ok ds <->
      path_exists w path = true /\
      open_dataset w path
      = Ok {| var_H_index := Some (H_index ds); coord_lat := Some (lat ds);
              coord_lon := Some (lon ds) |}) /\
  (forall e,
      load_h_dataset w path = Raise e <->
      (path_exists w path = false /\
       e = FileNotFoundError ("Fichier introuvable: " ++ path)) \/
      (path_exists w path = true /\ open_dataset w path = Raise e) \/
      (path_exists w path = true /\
       exists raw, open_dataset w path = Ok raw /\
         ((var_H_index raw = None /\
           e = KeyError "Variable 'H_index' absente du NetCDF") \/
          (var_H_index raw <> None /\
           (coord_lat raw = None \/ coord_lon raw = None) /\
           e = KeyError "Coordonnées 'lat'/'lon' absentes du NetCDF")))).
Proof.
  unfold load_h_dataset.
  destruct (path_exists w path) eqn:Hex; cbn [negb].
  - destruct (open_dataset w path) as [[oH ola olo] | e0] eqn:Hopen;
      cbn [bind var_H_index coord_lat coord_lon].
    + destruct oH as [H |], ola as [la |], olo as [lo |]; split;
        try (intros [H' la' lo']; cbn; split;
             [ intros [= <- <- <-]; auto
             | intros [_ [= <- <- <-]]; reflexivity ]);
        try (intros ds; split; [discriminate | intros [_ Hd]; discriminate Hd]);
        try (intros e; split;
             [ discriminate
             | intros [[Hf _] | [[_ Hr] | (_ & raw & [= <-] & Hcase)]];
               try discriminate;
               cbn in Hcase;
               destruct Hcase as [[Hn _] | (Hn & [Hc | Hc] & _)];
               congruence ]);
        (intros e; split;
         [ intros [= <-]; right; right; split; [reflexivity |];
           eexists; split; [reflexivity |]; cbn;
           first [ left; split; reflexivity
                 | right; split; [discriminate |]; split; [| reflexivity];
                   first [left; reflexivity | right; reflexivity] ]
         | intros [[Hf _] | [[_ Hr] | (_ & raw & [= <-] & Hcase)]];
           try discriminate;
           cbn in Hcase;
           destruct Hcase as [[Hn ->] | (Hn & _ & ->)];
           first [reflexivity | congruence] ]).
    + split.
      * intros ds. split; [discriminate | intros [_ Hd]; discriminate Hd].
      * intros e. split.
        -- intros [= <-]. right. left. auto.
        -- intros [[Hf _] | [[_ Hr] | (_ & raw & Hr & _)]];
             [discriminate | congruence | discriminate].
  - split.
    + intros ds. split; [discriminate | intros [Hf _]; discriminate Hf].
    + intros e. split.
      * intros [= <-]. left. auto.
      * intros [[_ ->] | [[Hf _] | (Hf & _)]];
          [reflexivity | discriminate | discriminate].
Qed.

(* ===================================================================== *)
(** * How the handlers answer when the dataset is missing or broken *)
(* ===================================================================== *)

(** X7.  A file that is found but does not load is not replaced by another
    candidate: [/analyze], [/predict] and [/series] answer 500 with the
    text of the loader's error after their own prefix, for every
    parameter, and [/meta], which catches nothing, raises the loader's
    error as it is. *)
Theorem broken_file_no_fallback
  (w : World) (p : string) (e : exn) (date : option string)
  (latQ lonQ : float) (agg : string) :
  find_data_file w = Some p -> load_h_dataset w p = Raise e ->
  analyze w date = Raise (HTTPException 500 ("Erreur d'analyse: " ++ py_str e)) /\
  predict w latQ lonQ
  = Raise (HTTPException 500 ("Erreur prédiction: " ++ py_str e)) /\
  series w agg = Raise (HTTPException 500 ("Erreur séries: " ++ py_str e)) /\
  meta w = Raise e.
Proof.
  intros Hfind Hload. unfold analyze, predict, series, meta.
  rewrite Hfind, Hload. repeat split.
Qed.

Lemma broken_file_no_fallback_witness :
  series (Sample.world_with [Sample.data_path]
            {| var_H_index := None; coord_lat := None; coord_lon := None |})
         "global"
  = Raise (HTTPException 500
             ("Erreur séries: "
              ++ py_str (KeyError "Variable 'H_index' absente du NetCDF"))).
Proof.
  apply (broken_file_no_fallback
           (Sample.world_with [Sample.data_path]
              {| var_H_index := None; coord_lat := None; coord_lon := None |})
           Sample.data_path
           (KeyError "Variable 'H_index' absente du NetCDF")
           None F64.zero F64.zero "global");
    reflexivity.
Defined.

Lemma series_global_body (H : ndarray2) : exists v, series_global H = Body v.
Proof.
  unfold series_global.
  destruct (List.length _ =? 0)%nat; [eauto |].
  destruct (np.histogram _ _ _). eauto.
Qed.

Lemma series_loaded_body (w : World) (p : string) (ds : Dataset) (agg : string) :
  find_data_file w = Some p -> load_h_dataset w p = Ok ds ->
  exists v, series w agg = Ok (Body v).
Proof.
  intros Hfind Hload. unfold series. rewrite Hfind, Hload. cbn [bind].
  destruct (String.eqb agg "lat_mean"); [eexists; reflexivity |].
  destruct (String.eqb agg "lon_mean"); [eexists; reflexivity |].
  destruct (series_global_body (H_index ds)) as [v ->]. eexists. reflexivity.
Qed.

(** The histogram can always be encoded: its bins are the fixed edges and
    its counts are integers. *)
Lemma series_global_compliant (H : ndarray2) :
  exists v, series_global H = Body v /\ json_compliant v = true.
Proof.
  destruct (finite_cells H) as [| x l] eqn:E.
  - rewrite (series_global_empty H E). eexists. split; reflexivity.
  - rewrite (series_global_histogram H) by (rewrite E; discriminate).
    eexists. split; [reflexivity |].
    rewrite json_compliant_dict. cbn [forallb snd].
    rewrite json_compliant_ints. reflexivity.
Qed.

Lemma series_default_status
  (w : World) (p : string) (ds : Dataset) (agg : string) :
  find_data_file w = Some p -> load_h_dataset w p = Ok ds ->
  agg <> "lat_mean" -> agg <> "lon_mean" ->
  http_status (series w agg) = 200%Z.
Proof.
  intros Hfind Hload H1 H2. rewrite (series_default w p ds Hfind Hload agg H1 H2).
  destruct (series_global_compliant (H_index ds)) as (v & -> & Hv).
  apply http_status_body_200. exact Hv.
Qed.

(** The axis that [/series] puts into its body next to the means: the
    latitudes for [lat_mean], the longitudes for [lon_mean], none
    otherwise. *)
Lemma series_loaded_status
  (w : World) (p : string) (ds : Dataset) (agg : string) :
  find_data_file w = Some p -> load_h_dataset w p = Ok ds ->
  http_status (series w agg)
  = (if forallb np.isfinite (series_axis ds agg) then 200 else 500)%Z.
Proof.
  intros Hfind Hload. unfold series_axis.
  destruct (String.eqb agg "lat_mean") eqn:E1.
  - apply String.eqb_eq in E1. subst agg.
    apply (series_lat_mean_status w p ds Hfind Hload).
  - destruct (String.eqb agg "lon_mean") eqn:E2.
    + apply String.eqb_eq in E2. subst agg.
      apply (series_lon_mean_status w p ds Hfind Hload).
    + apply String.eqb_neq in E1, E2.
      apply (series_default_status w p ds agg Hfind Hload E1 E2).
Qed.

(** X8.  [/series] answers 404 exactly when no file is found.  It answers
    200 exactly when a file is found and loads and the axis that goes into
    the body (the latitudes for [lat_mean], the longitudes for [lon_mean],
    none for the histogram) holds finite numbers only: no aggregation name
    and no grid, empty or ragged, makes it fail, the means that are not
    finite being null.  It answers 500 exactly when the file found does
    not load, or when that axis holds NaN or an infinity, which cannot be
    encoded. *)
Theorem series_status (w : World) (agg : string) :
  (http_status (series w agg) = 404%Z <-> find_data_file w = None) /\
  (http_status (series w agg) = 200%Z <->
   exists p ds, find_data_file w = Some p /\ load_h_dataset w p = Ok ds /\
                forallb np.isfinite (series_axis ds agg) = true) /\
  (http_status (series w agg) = 500%Z <->
   exists p, find_data_file w = Some p /\
     ((exists e, load_h_dataset w p = Raise e) \/
      (exists ds, load_h_dataset w p = Ok ds /\
                  forallb np.isfinite (series_axis ds agg) = false))).
Proof.
  destruct (find_data_file w) as [p |] eqn:Hfind.
  - destruct (load_h_dataset w p) as [ds | e] eqn:Hload.
    + rewrite (series_loaded_status w p ds agg Hfind Hload).
      destruct (forallb np.isfinite (series_axis ds agg)) eqn:Hax.
      * split; [split; discriminate |].
        split; [split; [intros _; eauto | reflexivity] |].
        split; [discriminate |].
        intros (q & [= <-] & [[e He] | (ds' & Hd & Hf)]); congruence.
      * split; [split; discriminate |].
        split; [split; [discriminate |] | split; [| reflexivity]].
        -- intros (q & ds' & [= <-] & Hd & Hf). congruence.
        -- intros _. exists p. split; [reflexivity |]. right. eauto.
    + assert (Hs : series w agg
                   = Raise (HTTPException 500 ("Erreur séries: " ++ py_str e))).
      { unfold series. rewrite Hfind, Hload. reflexivity. }
      rewrite Hs. cbn [http_status].
      split; [split; discriminate |].
      split; [split; [discriminate |] | split; [| reflexivity]].
      * intros (q & ds & [= <-] & Hd & _). congruence.
      * intros _. exists p. split; [reflexivity |]. left. eauto.
  - assert (Hs : http_status (series w agg) = 404%Z)
      by (unfold series; rewrite Hfind; reflexivity).
    rewrite Hs.
    split; [split; reflexivity |].
    split; (split; [discriminate |]).
    + intros (q & ds & Hq & _). discriminate Hq.
    + intros (q & Hq & _). discriminate Hq.
Qed.

(** A latitude axis that holds NaN: the histogram is answered with 200,
    the row means with 500. *)
Example series_nan_latitude :
  http_status (series Sample.nan_lat "global") = 200%Z /\
  http_status (series Sample.nan_lat "lat_mean") = 500%Z /\
  http_status (series Sample.nan_lat "lon_mean") = 200%Z /\
  http_status (series Sample.world "lat_mean") = 200%Z.
Proof. repeat split. Qed.

(** X9.  [/predict] on a dataset with an empty axis answers 500, naming
    the empty [argmin]: there is no nearest entry to resolve. *)
Theorem predict_empty_axis
  (w : World) (p : string) (ds : Dataset) (latQ lonQ : float) :
  find_data_file w = Some p -> load_h_dataset w p = Ok ds ->
  lat ds = [] \/ lon ds = [] ->
  predict w latQ lonQ
  = Raise (HTTPException 500
             "Erreur prédiction: attempt to get argmin of an empty sequence").
Proof.
  intros Hfind Hload Hempty. rewrite (predict_loaded w p ds Hfind Hload).
  destruct Hempty as [He | He].
  - rewrite He. reflexivity.
  - rewrite He. destruct (lat ds) as [| x l] eqn:Hlat; [reflexivity |].
    destruct (nearest_index_spec (x :: l) latQ) as (i & -> & _);
      [discriminate | reflexivity].
Qed.

Lemma predict_empty_axis_witness :
  http_status
    (predict (Sample.world_with [Sample.data_path]
                (Sample.dataset Sample.grid [] [Sample.f100; Sample.f110]))
             Sample.f10 Sample.f100) = 500%Z.
Proof.
  rewrite (predict_empty_axis
             (Sample.world_with [Sample.data_path]
                (Sample.dataset Sample.grid [] [Sample.f100; Sample.f110]))
             Sample.data_path
             {| H_index := Sample.grid; lat := [];
                lon := [Sample.f100; Sample.f110] |}
             Sample.f10 Sample.f100 eq_refl eq_refl (or_introl eq_refl)).
  reflexivity.
Defined.

(* ===================================================================== *)
(** * [/meta] *)
(* ===================================================================== *)

Lemma minimum_cases (x y : float) :
  (np.isnan x = true \/ np.isnan y = true ->
   np.isnan (np.minimum x y) = true) /\
  (np.isnan x = false -> np.isnan y = false ->
   (np.minimum x y = x \/ np.minimum x y = y) /\
   np.isnan (np.minimum x y) = false /\
   F64.leb (np.minimum x y) x = true /\ F64.leb (np.minimum x y) y = true).
Proof.
  unfold np.minimum.
  destruct (F64.leb x y) eqn:Hle; cbn [orb].
  - destruct (leb_notnan x y Hle) as [Hx Hy]. split.
    + intros [H | H]; congruence.
    + intros _ _. split; [auto |]. split; [assumption |].
      split; [apply leb_refl, Hx | assumption].
  - destruct (np.isnan x) eqn:Hx.
    + split; [auto | discriminate].
    + split.
      * intros [H | H]; [discriminate | assumption].
      * intros _ Hy. split; [auto |]. split; [assumption |].
        split; [| apply leb_refl, Hy].
        destruct (leb_total x y Hx Hy); congruence.
Qed.

Lemma maximum_cases (x y : float) :
  (np.isnan x = true \/ np.isnan y = true ->
   np.isnan (np.maximum x y) = true) /\
  (np.isnan x = false -> np.isnan y = false ->
   (np.maximum x y = x \/ np.maximum x y = y) /\
   np.isnan (np.maximum x y) = false /\
   F64.leb x (np.maximum x y) = true /\ F64.leb y (np.maximum x y) = true).
Proof.
  unfold np.maximum, F64.geb.
  destruct (F64.leb y x) eqn:Hle; cbn [orb].
  - destruct (leb_notnan y x Hle) as [Hy Hx]. split.
    + intros [H | H]; congruence.
    + intros _ _. split; [auto |]. split; [assumption |].
      split; [apply leb_refl, Hx | assumption].
  - destruct (np.isnan x) eqn:Hx.
    + split; [auto | discriminate].
    + split.
      * intros [H | H]; [discriminate | assumption].
      * intros _ Hy. split; [auto |]. split; [assumption |].
        split; [| apply leb_refl, Hy].
        destruct (leb_total x y Hx Hy); congruence.
Qed.

(** A reduction that keeps NaN: over cells without NaN it returns a cell
    that bounds all of them; with a NaN among the cells it returns NaN. *)
Section Reduction.

Variable op : float -> float -> float.
Variable below : float -> float -> bool.   (* [below r c]: [r] bounds [c] *)
Hypothesis op_nan :
  forall x y, np.isnan x = true \/ np.isnan y = true -> np.isnan (op x y) = true.
Hypothesis op_pick :
  forall x y, np.isnan x = false -> np.isnan y = false ->
    (op x y = x \/ op x y = y) /\ np.isnan (op x y) = false /\
    below (op x y) x = true /\ below (op x y) y = true.
Hypothesis below_trans :
  forall a b c, below a b = true -> below b c = true -> below a c = true.
Hypothesis below_refl : forall a, np.isnan a = false -> below a a = true.

Lemma fold_keeps_nan (l : list float) :
  forall x, Exists (fun c => np.isnan c = true) (x :: l) ->
            np.isnan (fold_left op l x) = true.
Proof.
  induction l as [| y l IH]; intros x Hex; cbn [fold_left].
  - inversion Hex as [? ? H | ? ? H]; [assumption | inversion H].
  - apply IH. inversion Hex as [? ? H | ? ? H]; subst.
    + left. apply op_nan. auto.
    + inversion H as [? ? H' | ? ? H']; subst.
      * left. apply op_nan. auto.
      * right. assumption.
Qed.

Lemma fold_bounds (l : list float) :
  forall x, Forall (fun c => np.isnan c = false) (x :: l) ->
            In (fold_left op l x) (x :: l) /\
            forall c, In c (x :: l) -> below (fold_left op l x) c = true.
Proof.
  induction l as [| y l IH]; intros x Hall; cbn [fold_left].
  - inversion Hall; subst. split; [left; reflexivity |].
    intros c [<- | []]. apply below_refl. assumption.
  - inversion Hall as [| ? ? Hx Hl]; subst.
    inversion Hl as [| ? ? Hy Hl']; subst.
    destruct (op_pick x y Hx Hy) as (Hpick & Hn & Hbx & Hby).
    destruct (IH (op x y)) as [Hin Hb]; [constructor; assumption |].
    split.
    + destruct Hin as [Hr | Hr]; [| right; right; assumption].
      rewrite <- Hr. destruct Hpick as [-> | ->]; [left | right; left];
        reflexivity.
    + intros c [<- | [<- | Hc]].
      * apply below_trans with (op x y); [| assumption].
        apply Hb. left. reflexivity.
      * apply below_trans with (op x y); [| assumption].
        apply Hb. left. reflexivity.
      * apply Hb. right. assumption.
Qed.

End Reduction.

Lemma amin_spec (a : list float) :
  a <> [] ->
  exists r, np.amin a = Ok r /\
    (Forall (fun c => np.isnan c = false) a ->
     In r a /\ forall c, In c a -> F64.leb r c = true) /\
    (Exists (fun c => np.isnan c = true) a -> r = F64.nan).
Proof.
  destruct a as [| x l]; [congruence | intros _].
  eexists. split; [reflexivity |]. split.
  - apply (fold_bounds np.minimum F64.leb).
    + intros x0 y H1 H2. apply minimum_cases; assumption.
    + apply leb_trans.
    + apply leb_refl.
  - intros Hex.
    assert (H : np.isnan (fold_left np.minimum l x) = true).
    { apply fold_keeps_nan; [| assumption].
      intros x0 y. apply minimum_cases. }
    destruct (fold_left np.minimum l x); try discriminate H. reflexivity.
Qed.

Lemma amax_spec (a : list float) :
  a <> [] ->
  exists r, np.amax a = Ok r /\
    (Forall (fun c => np.isnan c = false) a ->
     In r a /\ forall c, In c a -> F64.leb c r = true) /\
    (Exists (fun c => np.isnan c = true) a -> r = F64.nan).
Proof.
  destruct a as [| x l]; [congruence | intros _].
  eexists. split; [reflexivity |]. split.
  - apply (fold_bounds np.maximum (fun r c => F64.leb c r)).
    + intros x0 y H1 H2. apply maximum_cases; assumption.
    + intros a b c Hab Hbc. apply leb_trans with b; assumption.
    + apply leb_refl.
  - intros Hex.
    assert (H : np.isnan (fold_left np.maximum l x) = true).
    { apply fold_keeps_nan; [| assumption].
      intros x0 y. apply maximum_cases. }
    destruct (fold_left np.maximum l x); try discriminate H. reflexivity.
Qed.

Section MetaLoaded.

Variables (w : World) (data_path : string) (ds : Dataset).
Hypothesis Hfind : find_data_file w = Some data_path.
Hypothesis Hload : load_h_dataset w data_path = Ok ds.

Lemma meta_loaded :
  meta w
  = (lat_min <- np.amin (lat ds) ;;
     lat_max <- np.amax (lat ds) ;;
     lon_min <- np.amin (lon ds) ;;
     lon_max <- np.amax (lon ds) ;;
     Ok (meta_body data_path (List.length (lat ds)) (List.length (lon ds))
           lat_min lat_max lon_min lon_max)).
Proof. unfold meta. rewrite Hfind, Hload. reflexivity. Qed.

End MetaLoaded.

(** X10.  For a loaded dataset whose axes are not empty and hold no NaN,
    [/meta] returns the path, the two lengths, and for each axis a minimum
    and a maximum that are entries of the axis and bound every entry. *)
Theorem meta_axis_bounds (w : World) (data_path : string) (ds : Dataset) :
  find_data_file w = Some data_path -> load_h_dataset w data_path = Ok ds ->
  lat ds <> [] -> lon ds <> [] ->
  Forall (fun c => np.isnan c = false) (lat ds) ->
  Forall (fun c => np.isnan c = false) (lon ds) ->
  exists lat_min lat_max lon_min lon_max,
    meta w = Ok (meta_body data_path (List.length (lat ds))
                   (List.length (lon ds)) lat_min lat_max lon_min lon_max) /\
    In lat_min (lat ds) /\ In lat_max (lat ds) /\
    In lon_min (lon ds) /\ In lon_max (lon ds) /\
    (forall c, In c (lat ds) ->
               F64.leb lat_min c = true /\ F64.leb c lat_max = true) /\
    (forall c, In c (lon ds) ->
               F64.leb lon_min c = true /\ F64.leb c lon_max = true).
Proof.
  intros Hfind Hload Hla Hlo Hnla Hnlo.
  destruct (amin_spec (lat ds) Hla) as (a1 & E1 & B1 & _).
  destruct (amax_spec (lat ds) Hla) as (a2 & E2 & B2 & _).
  destruct (amin_spec (lon ds) Hlo) as (a3 & E3 & B3 & _).
  destruct (amax_spec (lon ds) Hlo) as (a4 & E4 & B4 & _).
  destruct (B1 Hnla) as [I1 L1]. destruct (B2 Hnla) as [I2 L2].
  destruct (B3 Hnlo) as [I3 L3]. destruct (B4 Hnlo) as [I4 L4].
  exists a1, a2, a3, a4.
  split.
  { rewrite (meta_loaded w data_path ds Hfind Hload), E1, E2, E3, E4.
    reflexivity. }
  repeat (split; [assumption |]).
  split; intros c Hc; split; auto.
Qed.

Lemma meta_axis_bounds_witness :
  exists lat_min lat_max lon_min lon_max,
    meta Sample.world
    = Ok (meta_body Sample.data_path 2 2 lat_min lat_max lon_min lon_max) /\
    In lat_min [Sample.f10; Sample.f20] /\ In lat_max [Sample.f10; Sample.f20].
Proof.
  destruct (meta_axis_bounds Sample.world Sample.data_path
              {| H_index := Sample.grid;
                 lat := [Sample.f10; Sample.f20];
                 lon := [Sample.f100; Sample.f110] |}
              eq_refl eq_refl)
    as (a1 & a2 & a3 & a4 & Hm & I1 & I2 & _); try discriminate;
    try (repeat constructor).
  exists a1, a2, a3, a4. auto.
Defined.

(** X11.  A NaN among the latitudes makes [/meta] report NaN for both the
    minimum and the maximum of the latitudes: these reductions do not
    leave NaN out, unlike the statistics of [/analyze]. *)
Theorem meta_nan_axis (w : World) (data_path : string) (ds : Dataset) :
  find_data_file w = Some data_path -> load_h_dataset w data_path = Ok ds ->
  lon ds <> [] ->
  Exists (fun c => np.isnan c = true) (lat ds) ->
  exists lon_min lon_max,
    meta w = Ok (meta_body data_path (List.length (lat ds))
                   (List.length (lon ds)) F64.nan F64.nan lon_min lon_max).
Proof.
  intros Hfind Hload Hlo Hex.
  assert (Hla : lat ds <> []) by (intros E; rewrite E in Hex; inversion Hex).
  destruct (amin_spec (lat ds) Hla) as (a1 & E1 & _ & N1).
  destruct (amax_spec (lat ds) Hla) as (a2 & E2 & _ & N2).
  destruct (amin_spec (lon ds) Hlo) as (a3 & E3 & _).
  destruct (amax_spec (lon ds) Hlo) as (a4 & E4 & _).
  rewrite (N1 Hex) in E1. rewrite (N2 Hex) in E2.
  exists a3, a4.
  rewrite (meta_loaded w data_path ds Hfind Hload), E1, E2, E3, E4.
  reflexivity.
Qed.

Lemma meta_nan_axis_witness :
  exists lon_min lon_max,
    meta (Sample.world_with [Sample.data_path]
            (Sample.dataset Sample.grid [Sample.f10; F64.nan]
               [Sample.f100; Sample.f110]))
    = Ok (meta_body Sample.data_path 2 2 F64.nan F64.nan lon_min lon_max).
Proof.
  apply (meta_nan_axis
           (Sample.world_with [Sample.data_path]
              (Sample.dataset Sample.grid [Sample.f10; F64.nan]
                 [Sample.f100; Sample.f110]))
           Sample.data_path
           {| H_index := Sample.grid; lat := [Sample.f10; F64.nan];
              lon := [Sample.f100; Sample.f110] |}).
  - reflexivity.
  - reflexivity.
  - discriminate.
  - right. left. reflexivity.
Defined.

(** X12.  [/meta] answers 404 exactly when no file is found (given that
    opening a file never raises an [HTTPException]); with a dataset loaded
    and an empty axis it raises the [ValueError] of the empty reduction,
    uncaught, which is a 500. *)
Theorem meta_status (w : World) :
  opens_without_http w ->
  (http_status (meta w) = 404%Z <-> find_data_file w = None) /\
  (forall p ds,
      find_data_file w = Some p -> load_h_dataset w p = Ok ds ->
      lat ds = [] \/ lon ds = [] ->
      (exists name,
          meta w = Raise (ValueError ("zero-size array to reduction operation "
                                      ++ name ++ " which has no identity"))) /\
      http_status (meta w) = 500%Z).
Proof.
  intros Hopen. split.
  - destruct (find_data_file w) as [p |] eqn:Hfind.
    + split; [| discriminate]. intros Hs. exfalso.
      destruct (load_h_dataset w p) as [ds | e] eqn:Hload.
      * rewrite (meta_loaded w p ds Hfind Hload) in Hs.
        unfold np.amin, np.amax, np.reduce in Hs.
        destruct (lat ds); [discriminate Hs |].
        destruct (lon ds); [discriminate Hs |].
        cbn [bind] in Hs. unfold meta_body in Hs.
        rewrite http_status_body in Hs.
        destruct (json_compliant _); discriminate Hs.
      * assert (Hm : meta w = Raise e)
          by (unfold meta; rewrite Hfind, Hload; reflexivity).
        rewrite Hm in Hs.
        destruct (load_h_dataset_outcomes w p) as [_ Herr].
        apply Herr in Hload
          as [[_ ->] | [[_ Hr] | (_ & raw & _ & [[_ ->] | (_ & _ & ->)])]];
          try discriminate Hs.
        destruct e; try discriminate Hs. apply (Hopen _ _ _ Hr).
    + split; [reflexivity |]. intros _. unfold meta. rewrite Hfind. reflexivity.
  - intros p ds Hfind Hload Hempty.
    rewrite (meta_loaded w p ds Hfind Hload).
    unfold np.amin, np.amax, np.reduce.
    destruct Hempty as [-> | ->].
    + split; [eexists; reflexivity | reflexivity].
    + destruct (lat ds); (split; [eexists; reflexivity | reflexivity]).
Qed.

Lemma meta_status_witness :
  http_status (meta Sample.no_file) = 404%Z.
Proof.
  apply (meta_status Sample.no_file); [| reflexivity].
  intros p c d H. discriminate H.
Defined.

(* ===================================================================== *)
(** * The nearest index for finite coordinates *)
(* ===================================================================== *)

(** Rounding a mantissa that is not negative never gives NaN. *)
Lemma shr_1_nonneg (mrs : shr_record) :
  (0 <= shr_m mrs)%Z -> (0 <= shr_m (shr_1 mrs))%Z.
Proof.
  destruct mrs as [m r s]. cbn.
  destruct m as [| [p | p |] | [p | p |]]; cbn; lia.
Qed.

Lemma iter_pos_keeps (A : Type) (P : A -> Prop) (f : A -> A) :
  (forall x, P x -> P (f x)) -> forall p x, P x -> P (iter_pos f p x).
Proof.
  intros Hf. induction p as [p IH | p IH |]; intros x Hx; cbn; auto.
Qed.

Lemma shr_nonneg (mrs : shr_record) (e n : Z) :
  (0 <= shr_m mrs)%Z -> (0 <= shr_m (fst (shr mrs e n)))%Z.
Proof.
  intros H. unfold shr. destruct n as [| p | p]; cbn; trivial.
  apply (iter_pos_keeps _ (fun r => (0 <= shr_m r)%Z)); [| assumption].
  apply shr_1_nonneg.
Qed.

Lemma shr_fexp_nonneg (m e : Z) (l : location) :
  (0 <= m)%Z -> (0 <= shr_m (fst (shr_fexp F64.prec F64.emax m e l)))%Z.
Proof.
  intros H. unfold shr_fexp. apply shr_nonneg.
  destruct l as [| []]; cbn; assumption.
Qed.

Lemma round_nearest_even_nonneg (m : Z) (l : location) :
  (0 <= m)%Z -> (0 <= round_nearest_even m l)%Z.
Proof.
  intros H. unfold round_nearest_even.
  destruct l as [| []]; try destruct (Z.even m); lia.
Qed.

Lemma binary_round_aux_not_nan (s : bool) (m e : Z) (l : location) :
  (0 <= m)%Z ->
  F64.isnan (binary_round_aux F64.prec F64.emax s m e l) = false.
Proof.
  intros H. unfold binary_round_aux.
  pose proof (shr_fexp_nonneg m e l H) as H1.
  destruct (shr_fexp F64.prec F64.emax m e l) as [mrs' e']. cbn [fst] in H1.
  pose proof (shr_fexp_nonneg _ e' loc_Exact
                (round_nearest_even_nonneg _ (loc_of_shr_record mrs') H1)) as H2.
  destruct (shr_fexp F64.prec F64.emax
              (round_nearest_even (shr_m mrs') (loc_of_shr_record mrs'))
              e' loc_Exact) as [mrs'' e''].
  cbn [fst] in H2.
  destruct (shr_m mrs'') as [| p | p]; [reflexivity | | lia].
  destruct (e'' <=? F64.emax - F64.prec)%Z; reflexivity.
Qed.

Lemma binary_normalize_not_nan (m e : Z) (szero : bool) :
  F64.isnan (binary_normalize F64.prec F64.emax m e szero) = false.
Proof.
  unfold binary_normalize, binary_round.
  destruct m as [| p | p]; [reflexivity | |];
    destruct (shl_align _ _ _) as [mz ez];
    apply binary_round_aux_not_nan; lia.
Qed.

(** The difference of a number that is not NaN and a finite number is not
    NaN, and neither is its absolute value. *)
Lemma sub_not_nan (x q : float) :
  F64.isnan x = false -> F64.isfinite q = true ->
  F64.isnan (F64.abs (F64.sub x q)) = false.
Proof.
  intros Hx Hq.
  assert (H : F64.isnan (F64.sub x q) = false).
  { unfold F64.sub.
    destruct x as [sx | sx | | sx mx ex], q as [sq | sq | | sq mq eq];
      try discriminate; try reflexivity.
    - destruct sx, sq; reflexivity.
    - cbn [SFsub]. apply binary_normalize_not_nan. }
  destruct (F64.sub x q); try discriminate H; reflexivity.
Qed.

Lemma distances_not_nan (axis : list float) (q : float) :
  Forall (fun x => F64.isnan x = false) axis -> F64.isfinite q = true ->
  Forall (fun d => F64.isnan d = false) (distances axis q).
Proof.
  intros Hall Hq. unfold distances. apply Forall_map.
  eapply Forall_impl; [| exact Hall].
  intros x Hx. apply sub_not_nan; assumption.
Qed.

(** X13.  On an axis that is not empty and holds no NaN, a finite query
    resolves to the first index whose computed distance is the least: no
    entry is nearer, and every entry before it is strictly farther. *)
Theorem nearest_index_finite (axis : list float) (q : float) :
  axis <> [] -> Forall (fun x => F64.isnan x = false) axis ->
  F64.isfinite q = true ->
  exists i, nearest_index axis q = Ok (Z.of_nat i) /\
            (i < List.length axis)%nat /\
            first_min (distances axis q) i.
Proof.
  intros Hne Hall Hq.
  destruct (nearest_index_spec axis q Hne) as (i & Hi & Hlt & Hspec).
  exists i. repeat split; trivial.
  destruct Hspec as [(v & Hv & Hnan & _) | Hfm]; [| assumption].
  pose proof (distances_not_nan axis q Hall Hq) as Hd.
  rewrite Forall_forall in Hd.
  rewrite (Hd v (nth_error_In _ _ Hv)) in Hnan. discriminate Hnan.
Qed.

Lemma nearest_index_finite_witness :
  exists i, nearest_index [Sample.f10; Sample.f20] Sample.f15
            = Ok (Z.of_nat i) /\
            (i < 2)%nat /\
            first_min (distances [Sample.f10; Sample.f20] Sample.f15) i.
Proof.
  apply (nearest_index_finite [Sample.f10; Sample.f20] Sample.f15).
  - discriminate.
  - repeat constructor.
  - reflexivity.
Defined.

(** The distance of a finite number to itself is zero. *)
Lemma distance_to_self (x : float) :
  F64.isfinite x = true -> F64.abs (F64.sub x x) = F64.zero.
Proof.
  destruct x as [s | s | | s m e]; try discriminate; intros _.
  - destruct s; reflexivity.
  - unfold F64.sub. cbn [SFsub]. rewrite Z.sub_diag. reflexivity.
Qed.

(** Zero is below every distance that is not NaN. *)
Lemma zero_least_distance (t : float) :
  F64.isnan (F64.abs t) = false -> F64.leb F64.zero (F64.abs t) = true.
Proof. destruct t as [s | s | | s m e]; try discriminate; reflexivity. Qed.

Lemma distance_below_zero (t : float) :
  F64.leb (F64.abs t) F64.zero = true -> F64.abs t = F64.zero.
Proof. destruct t as [s | s | | s m e]; try discriminate; reflexivity. Qed.

(** X14.  An exact hit: when the finite query equals the entry at index
    [k] of an axis without NaN, the index resolved is at or before [k] and
    its computed distance to the query is zero. *)
Theorem nearest_index_exact_hit (axis : list float) (q : float) (k : nat) :
  Forall (fun x => F64.isnan x = false) axis -> F64.isfinite q = true ->
  nth_error axis k = Some q ->
  exists i, nearest_index axis q = Ok (Z.of_nat i) /\ (i <= k)%nat /\
            nth_error (distances axis q) i = Some F64.zero.
Proof.
  intros Hall Hq Hk.
  pose proof (distances_not_nan axis q Hall Hq) as Hd.
  rewrite Forall_forall in Hd.
  assert (Hdk : nth_error (distances axis q) k = Some F64.zero).
  { unfold distances. rewrite (map_nth_error _ _ _ Hk).
    rewrite (distance_to_self q Hq). reflexivity. }
  assert (Hatt : attains_min (distances axis q) k).
  { exists F64.zero. split; [assumption |].
    intros m x Hx. pose proof (Hd x (nth_error_In _ _ Hx)) as Hxn.
    unfold distances in Hx. rewrite nth_error_map in Hx.
    destruct (nth_error axis m) as [a |]; [| discriminate Hx].
    cbn in Hx. injection Hx as <-. apply zero_least_distance. assumption. }
  destruct (nearest_index_first_min axis q k Hatt) as (i & Hi & Hle & Hfm).
  exists i. repeat split; trivial.
  destruct Hfm as (v & Hv & Hmin & _).
  specialize (Hmin k F64.zero Hdk).
  rewrite Hv. f_equal.
  unfold distances in Hv. rewrite nth_error_map in Hv.
  destruct (nth_error axis i) as [a |]; [| discriminate Hv].
  cbn in Hv. injection Hv as <-. apply distance_below_zero. assumption.
Qed.

Lemma nearest_index_exact_hit_witness :
  exists i, nearest_index [Sample.f10; Sample.f20] Sample.f20
            = Ok (Z.of_nat i) /\ (i <= 1)%nat /\
            nth_error (distances [Sample.f10; Sample.f20] Sample.f20) i
            = Some F64.zero.
Proof.
  apply (nearest_index_exact_hit [Sample.f10; Sample.f20] Sample.f20 1).
  - repeat constructor.
  - reflexivity.
  - reflexivity.
Defined.

(** X15.  A query that is NaN, or an axis whose first entry is NaN,
    resolves to index 0 without any error, whatever the other entries
    are. *)
Theorem nearest_index_nan (x : float) (rest : list float) (q : float) :
  F64.isnan q = true \/ F64.isnan x = true ->
  nearest_index (x :: rest) q = Ok 0%Z.
Proof.
  intros H.
  assert (Hd : F64.abs (F64.sub x q) = F64.nan).
  { destruct H as [H | H].
    - destruct q; try discriminate H. destruct x; reflexivity.
    - destruct x; try discriminate H. reflexivity. }
  unfold nearest_index, distances, np.argmin. cbn [map]. rewrite Hd.
  change (F64.isnan F64.nan) with true. cbn [bind List.length].
  unfold np.clip. f_equal. lia.
Qed.

Lemma nearest_index_nan_witness :
  nearest_index [Sample.f10; Sample.f20] F64.nan = Ok 0%Z.
Proof.
  apply (nearest_index_nan Sample.f10 [Sample.f20] F64.nan).
  left. reflexivity.
Defined.

(* ===================================================================== *)
(** * [/analyze]: dates, empty grids and grids of NaN *)
(* ===================================================================== *)

(** X16.  A date that [strptime] accepts changes nothing but one entry:
    the answer is the answer without a date, with the date string as
    given added last under [requested_date]; path and statistics are the
    same. *)
Theorem analyze_accepted_date_echo
  (w : World) (d : string) (ymd : Z * Z * Z) (payload : list (string * pyval)) :
  analyze w None = Ok (Body (PDict payload)) ->
  strptime.parse d = Ok ymd ->
  analyze w (Some d)
  = Ok (Body (PDict (payload ++ [("requested_date", PStr d)])%list)) /\
  dict_get "requested_date" (payload ++ [("requested_date", PStr d)])%list
  = Some (PStr d) /\
  dict_get "data_path" (payload ++ [("requested_date", PStr d)])%list
  = dict_get "data_path" payload /\
  dict_get "stats" (payload ++ [("requested_date", PStr d)])%list
  = dict_get "stats" payload.
Proof.
  unfold analyze.
  destruct (find_data_file w) as [p |]; [| discriminate].
  destruct (load_h_dataset w p) as [ds | e]; cbn [bind try_except];
    [| discriminate].
  destruct (np.nanmin (H_index ds)) as [hmin | e]; cbn [bind try_except];
    [| discriminate].
  destruct (np.nanmax (H_index ds)) as [hmax | e]; cbn [bind try_except];
    [| discriminate].
  intros [= <-] Hd. rewrite Hd. repeat split.
Qed.

Lemma analyze_accepted_date_echo_witness :
  field "requested_date" (Body (PDict
    ([("data_path", PStr Sample.data_path);
      ("stats", PDict [("min", PFloat Sample.f0_2); ("max", PFloat Sample.f0_8);
                       ("mean", PFloat (mean_of (np.flatten Sample.grid)))])]
     ++ [("requested_date", PStr "2024-02-29")])%list))
  = Some (PStr "2024-02-29").
Proof.
  apply (analyze_accepted_date_echo Sample.world "2024-02-29"
           (2024, 2, 29)%Z
           [("data_path", PStr Sample.data_path);
            ("stats", PDict [("min", PFloat Sample.f0_2);
                             ("max", PFloat Sample.f0_8);
                             ("mean", PFloat (mean_of (np.flatten Sample.grid)))])]);
    reflexivity.
Defined.

(** An infinity is below no finite number and above none. *)
Lemma leb_pos_inf (y : float) :
  np.isfinite y = true -> F64.leb (S754_infinity false) y = false.
Proof. destruct y as [s | s | | s m e]; try discriminate; reflexivity. Qed.

Lemma leb_neg_inf (x : float) :
  np.isfinite x = true -> F64.leb x (S754_infinity true) = false.
Proof.
  destruct x as [s | s | | s m e]; try discriminate; intros _;
    [reflexivity | destruct s; reflexivity].
Qed.

Lemma between_finite (lo c hi : float) :
  np.isfinite lo = true -> np.isfinite hi = true ->
  F64.leb lo c = true -> F64.leb c hi = true -> np.isfinite c = true.
Proof.
  intros Hlo Hhi H1 H2.
  destruct c as [s | [|] | | s m e]; try reflexivity.
  - rewrite (leb_neg_inf lo Hlo) in H1. discriminate H1.
  - rewrite (leb_pos_inf hi Hhi) in H2. discriminate H2.
  - apply leb_notnan in H1. destruct H1 as [_ H1]. discriminate H1.
Qed.

(** The minimum and the maximum without NaN are both finite exactly when
    some cell is not NaN and no cell is an infinity. *)
Lemma min_max_finite_iff (x : float) (l : list float) :
  np.isfinite (fold_left np.fmin l x) = true /\
  np.isfinite (fold_left np.fmax l x) = true <->
  (exists c, In c (x :: l) /\ np.isnan c = false) /\
  (forall c, In c (x :: l) -> np.isnan c = true \/ np.isfinite c = true).
Proof.
  destruct (fold_fmin_spec l x) as (Hmin_in & Hmin_nan & Hmin_le).
  destruct (fold_fmax_spec l x) as (Hmax_in & Hmax_nan & Hmax_le).
  split.
  - intros [Hmin Hmax]. split.
    + exists (fold_left np.fmin l x). split; [assumption |].
      destruct (fold_left np.fmin l x); try discriminate Hmin; reflexivity.
    + intros c Hc. destruct (np.isnan c) eqn:Hnan; [left; reflexivity |].
      right. apply (between_finite _ c _ Hmin Hmax); auto.
  - intros [(c0 & Hc0 & Hnan0) Hfin].
    assert (Hall : ~ Forall (fun c => np.isnan c = true) (x :: l)).
    { intros Hall. rewrite Forall_forall in Hall.
      rewrite (Hall c0 Hc0) in Hnan0. discriminate Hnan0. }
    split.
    + destruct (Hfin _ Hmin_in) as [Hn | Hf]; [| exact Hf].
      destruct (Hall (Hmin_nan Hn)).
    + destruct (Hfin _ Hmax_in) as [Hn | Hf]; [| exact Hf].
      destruct (Hall (Hmax_nan Hn)).
Qed.

(** The status of [/analyze] on a grid that has cells, for a date that is
    absent or accepted: 200 when the three statistics are finite, 500 when
    one of them is not, since it cannot be encoded. *)
Lemma analyze_cells_status
  (w : World) (p : string) (ds : Dataset) (date : option string)
  (x : float) (l : list float) :
  find_data_file w = Some p -> load_h_dataset w p = Ok ds ->
  np.flatten (H_index ds) = x :: l ->
  (date = None \/ exists d ymd, date = Some d /\ strptime.parse d = Ok ymd) ->
  http_status (analyze w date)
  = (if np.isfinite (fold_left np.fmin l x)
        && np.isfinite (fold_left np.fmax l x)
        && np.isfinite (mean_of (x :: l))
     then 200 else 500)%Z.
Proof.
  intros Hfind Hload Hcells Hdate. unfold analyze.
  rewrite Hfind, Hload. cbn [bind try_except].
  unfold np.nanmin, np.nanmax, np.reduce. rewrite Hcells.
  cbn [bind try_except]. rewrite nanmean_mean_of.
  destruct Hdate as [-> | (d & ymd & -> & Hd)].
  - cbn [bind try_except]. rewrite http_status_body.
    cbn [json_compliant forallb snd].
    destruct (F64.isfinite (fold_left np.fmin l x)),
      (F64.isfinite (fold_left np.fmax l x)),
      (F64.isfinite (mean_of (x :: l))); reflexivity.
  - rewrite Hd. cbn [bind try_except]. rewrite http_status_body.
    cbn.
    destruct (F64.isfinite (fold_left np.fmin l x)),
      (F64.isfinite (fold_left np.fmax l x)),
      (F64.isfinite (mean_of (x :: l))); reflexivity.
Qed.

Lemma analyze_200_iff (w : World) (date : option string) :
  http_status (analyze w date) = 200%Z <->
  find_data_file w = None \/
  exists p ds,
    find_data_file w = Some p /\ load_h_dataset w p = Ok ds /\
    (exists c, In c (np.flatten (H_index ds)) /\ np.isnan c = false) /\
    (forall c, In c (np.flatten (H_index ds)) ->
               np.isnan c = true \/ np.isfinite c = true) /\
    np.isfinite (mean_of (np.flatten (H_index ds))) = true /\
    (date = None \/ exists d ymd, date = Some d /\ strptime.parse d = Ok ymd).
Proof.
  destruct (find_data_file w) as [p |] eqn:Hfind;
    [| unfold analyze; rewrite Hfind; cbn; tauto].
  destruct (load_h_dataset w p) as [ds | e] eqn:Hload.
  - destruct (np.flatten (H_index ds)) as [| x l] eqn:Hcells.
    + assert (Hs : http_status (analyze w date) = 500%Z).
      { unfold analyze. rewrite Hfind, Hload. cbn [bind].
        unfold np.nanmin, np.reduce. rewrite Hcells. reflexivity. }
      rewrite Hs. split; [discriminate |].
      intros [Hn | (q & ds' & [= <-] & Hl & (c & Hc & _) & _)];
        [discriminate |].
      rewrite Hload in Hl. injection Hl as <-.
      rewrite Hcells in Hc. destruct Hc.
    + assert (Hdate : (date = None \/
                       exists d ymd, date = Some d /\ strptime.parse d = Ok ymd)
                      \/ exists d e, date = Some d /\ strptime.parse d = Raise e).
      { destruct date as [d |]; [| auto].
        destruct (strptime.parse d) as [ymd | e] eqn:Hd; [left | right]; eauto. }
      destruct Hdate as [Hdate | (d & e & -> & Hd)].
      * rewrite (analyze_cells_status w p ds date x l Hfind Hload Hcells Hdate).
        pose proof (min_max_finite_iff x l) as [Hmm1 Hmm2].
        split.
        -- intros Hs. right. exists p, ds.
           destruct (np.isfinite (fold_left np.fmin l x)) eqn:Hmin;
             [| discriminate Hs].
           destruct (np.isfinite (fold_left np.fmax l x)) eqn:Hmax;
             [| discriminate Hs].
           destruct (np.isfinite (mean_of (x :: l))) eqn:Hmean;
             [| discriminate Hs].
           destruct (Hmm1 (conj eq_refl eq_refl)) as [Hex Hfin].
           rewrite Hcells.
           split; [reflexivity |]. split; [exact Hload |].
           split; [exact Hex |]. split; [exact Hfin |].
           split; [exact Hmean | exact Hdate].
        -- intros [Hn | (q & ds' & [= <-] & Hl & Hex & Hfin & Hm & _)];
             [discriminate Hn |].
           rewrite Hload in Hl. injection Hl as <-.
           rewrite Hcells in Hex, Hfin, Hm.
           destruct (Hmm2 (conj Hex Hfin)) as [Hmin Hmax].
           rewrite Hmin, Hmax, Hm. reflexivity.
      * assert (Hs : http_status (analyze w (Some d)) = 500%Z).
        { rewrite (analyze_refused_date w p ds
                     (fold_left np.fmin l x) (fold_left np.fmax l x)
                     Hfind Hload) with (e := e);
            [reflexivity | | | exact Hd];
            unfold np.nanmin, np.nanmax, np.reduce; rewrite Hcells;
            reflexivity. }
        rewrite Hs. split; [discriminate |].
        intros [Hn | (q & ds' & _ & _ & _ & _ & _ &
                      [Hdn | (d' & ymd & [= <-] & Hp)])];
          [discriminate | discriminate | congruence].
  - assert (Hs : http_status (analyze w date) = 500%Z)
      by (unfold analyze; rewrite Hfind, Hload; reflexivity).
    rewrite Hs. split; [discriminate |].
    intros [Hn | (q & ds & [= <-] & Hl & _)]; [discriminate | congruence].
Qed.

(** X17.  [/analyze] answers 200 exactly when no file is found, or a file
    is found and loads, its grid has a cell that is not NaN and no cell
    that is an infinity (so that the minimum and the maximum are finite),
    the mean is finite, and the date is absent or accepted by [strptime];
    in every other case it answers 500.  In particular a grid without
    cells is a 500, from the reduction of an empty array, and so is a grid
    of NaN cells only or one with an infinite cell, whose statistics cannot
    be encoded. *)
Theorem analyze_status_cases (w : World) (date : option string) :
  (http_status (analyze w date) = 200%Z <->
   find_data_file w = None \/
   exists p ds,
     find_data_file w = Some p /\ load_h_dataset w p = Ok ds /\
     (exists c, In c (np.flatten (H_index ds)) /\ np.isnan c = false) /\
     (forall c, In c (np.flatten (H_index ds)) ->
                np.isnan c = true \/ np.isfinite c = true) /\
     np.isfinite (mean_of (np.flatten (H_index ds))) = true /\
     (date = None \/ exists d ymd, date = Some d /\ strptime.parse d = Ok ymd)) /\
  (http_status (analyze w date) <> 200%Z -> http_status (analyze w date) = 500%Z) /\
  (forall p ds, find_data_file w = Some p -> load_h_dataset w p = Ok ds ->
                np.flatten (H_index ds) = [] ->
                analyze w date
                = Raise (HTTPException 500
                    "Erreur d'analyse: zero-size array to reduction operation fmin which has no identity")).
Proof.
  split; [apply analyze_200_iff | split].
  - destruct (analyze_status w date) as [H | H]; [congruence | auto].
  - intros p ds Hfind Hload Hcells. unfold analyze.
    rewrite Hfind, Hload. cbn [bind].
    unfold np.nanmin, np.reduce. rewrite Hcells. reflexivity.
Qed.

(** The sample grid, which holds a NaN cell next to finite ones, is
    answered with 200; a grid of NaN only and a grid with infinite cells
    are answered with 500. *)
Example analyze_status_samples :
  http_status (analyze Sample.world None) = 200%Z /\
  http_status (analyze Sample.world (Some "2024-02-29")) = 200%Z /\
  http_status (analyze Sample.all_nan None) = 500%Z /\
  http_status (analyze Sample.with_inf None) = 500%Z.
Proof. repeat split. Qed.

Section SumInvariant.

Variable P : float -> Prop.
Hypothesis P_neg_zero : P F64.neg_zero.
Hypothesis P_add : forall x y, P x -> P y -> P (F64.add x y).

Lemma fold_add_invariant (a : list float) :
  forall acc, P acc -> Forall P a -> P (fold_left F64.add a acc).
Proof.
  induction a as [| x a IH]; intros acc Hacc Ha; cbn [fold_left];
    [assumption |].
  inversion Ha; subst. apply IH; auto.
Qed.

Lemma block_loop_invariant (n : nat) :
  forall (a : list float) (r0 r1 r2 r3 r4 r5 r6 r7 : float),
    (List.length a <= n)%nat -> Forall P a ->
    P r0 -> P r1 -> P r2 -> P r3 -> P r4 -> P r5 -> P r6 -> P r7 ->
    P (np.block_loop r0 r1 r2 r3 r4 r5 r6 r7 a).
Proof.
  induction n as [| n IH]; intros a r0 r1 r2 r3 r4 r5 r6 r7 Hlen Ha
                                  H0 H1 H2 H3 H4 H5 H6 H7;
    destruct a as [| x0 [| x1 [| x2 [| x3 [| x4 [| x5 [| x6 [| x7 rest]]]]]]]];
    cbn [np.block_loop];
    try (apply fold_add_invariant; auto 8).
  - cbn in Hlen. lia.
  - repeat match goal with
           | H : Forall P (_ :: _) |- _ => inversion H; subst; clear H
           end.
    apply IH; auto. cbn in Hlen. lia.
Qed.

Lemma block_sum_invariant (a : list float) :
  Forall P a -> P (np.block_sum a).
Proof.
  intros Ha. unfold np.block_sum, np.small_sum.
  destruct a as [| x0 [| x1 [| x2 [| x3 [| x4 [| x5 [| x6 [| x7 rest]]]]]]]];
    try (apply fold_add_invariant; auto).
  repeat match goal with
         | H : Forall P (_ :: _) |- _ => inversion H; subst; clear H
         end.
  apply (block_loop_invariant (List.length rest)); auto.
Qed.

Lemma Forall_firstn (n : nat) (a : list float) :
  Forall P a -> Forall P (firstn n a).
Proof.
  rewrite !Forall_forall. intros H x Hx. apply H.
  rewrite <- (firstn_skipn n a). apply in_or_app. auto.
Qed.

Lemma Forall_skipn (n : nat) (a : list float) :
  Forall P a -> Forall P (skipn n a).
Proof.
  rewrite !Forall_forall. intros H x Hx. apply H.
  rewrite <- (firstn_skipn n a). apply in_or_app. auto.
Qed.

Lemma pairwise_sum_fuel_invariant (fuel : nat) :
  forall a, Forall P a -> P (np.pairwise_sum_fuel fuel a).
Proof.
  induction fuel as [| fuel IH]; intros a Ha; rewrite pairwise_sum_fuel_eq;
    (destruct (List.length a <? 8)%nat;
     [unfold np.small_sum; apply fold_add_invariant; auto |]);
    (destruct (List.length a <=? 128)%nat;
     [apply block_sum_invariant; assumption |]).
  - unfold np.small_sum. apply fold_add_invariant; auto.
  - cbv zeta. apply P_add; apply IH;
      [apply Forall_firstn | apply Forall_skipn]; assumption.
Qed.

(** What holds of -0.0 and is kept by addition holds of the sum of cells
    of which it holds. *)
Lemma sum_invariant (a : list float) : Forall P a -> P (np.sum a).
Proof.
  intros Ha. unfold np.sum, np.pairwise_sum.
  apply P_add; [assumption |]. apply pairwise_sum_fuel_invariant, Ha.
Qed.

End SumInvariant.

(** The sum of zeros is a zero. *)
Lemma sum_of_zeros (a : list float) :
  Forall (fun c => np.isnan c = true) a ->
  exists s, np.sum (np.replace_nan a) = S754_zero s.
Proof.
  intros Hall.
  apply (sum_invariant (fun x => exists s, x = S754_zero s)).
  - exists true. reflexivity.
  - intros x y [sx ->] [sy ->]. destruct sx, sy; eexists; reflexivity.
  - unfold np.replace_nan. apply Forall_forall. intros x Hx.
    apply in_map_iff in Hx as (c & <- & Hc).
    rewrite Forall_forall in Hall. rewrite (Hall c Hc).
    exists false. reflexivity.
Qed.

(** The mean of NaN cells only is NaN: a zero divided by zero. *)
Lemma mean_of_all_nan (a : list float) :
  Forall (fun c => np.isnan c = true) a -> mean_of a = F64.nan.
Proof.
  intros Hall. rewrite <- nanmean_mean_of. unfold np.nanmean.
  destruct (sum_of_zeros a Hall) as [s ->].
  rewrite (count_not_nan_all_nan _ Hall). destruct s; reflexivity.
Qed.

(** X18.  For a grid that has cells, all of them NaN, the handler of
    [/analyze] raises nothing and returns NaN for the minimum, the maximum
    and the mean, making up no number; that body cannot be encoded, and
    the request is answered with 500, whatever the date. *)
Theorem analyze_all_nan (w : World) (data_path : string) (ds : Dataset) :
  find_data_file w = Some data_path -> load_h_dataset w data_path = Ok ds ->
  np.flatten (H_index ds) <> [] ->
  Forall (fun c => np.isnan c = true) (np.flatten (H_index ds)) ->
  analyze w None = Ok (analyze_body data_path F64.nan F64.nan F64.nan) /\
  forall date, http_status (analyze w date) = 500%Z.
Proof.
  intros Hfind Hload Hne Hall. split.
  - unfold analyze. rewrite Hfind, Hload.
    cbn [bind]. unfold np.nanmin, np.nanmax, np.reduce.
    rewrite nanmean_mean_of, (mean_of_all_nan _ Hall).
    destruct (np.flatten (H_index ds)) as [| x l]; [congruence |].
    destruct (fold_fmin_spec l x) as (Hin1 & _).
    destruct (fold_fmax_spec l x) as (Hin2 & _).
    rewrite Forall_forall in Hall.
    pose proof (Hall _ Hin1) as H1. pose proof (Hall _ Hin2) as H2.
    destruct (fold_left np.fmin l x); try discriminate H1.
    destruct (fold_left np.fmax l x); try discriminate H2.
    reflexivity.
  - intros date.
    destruct (analyze_status w date) as [H | H]; [| exact H].
    apply analyze_200_iff in H
      as [Hn | (q & ds' & Hq & Hl & (c & Hc & Hnan) & _)]; [congruence |].
    rewrite Hfind in Hq. injection Hq as <-.
    rewrite Hload in Hl. injection Hl as <-.
    rewrite Forall_forall in Hall. rewrite (Hall c Hc) in Hnan.
    discriminate Hnan.
Qed.

Lemma analyze_all_nan_witness :
  analyze Sample.all_nan None
  = Ok (analyze_body Sample.data_path F64.nan F64.nan F64.nan) /\
  http_status (analyze Sample.all_nan (Some "2024-02-29")) = 500%Z.
Proof.
  destruct (analyze_all_nan Sample.all_nan Sample.data_path
              {| H_index := {| nd_ncols := 1; nd_rows := [[F64.nan]] |};
                 lat := [Sample.f10]; lon := [Sample.f100] |})
    as [Ha Hs].
  - reflexivity.
  - reflexivity.
  - discriminate.
  - repeat constructor.
  - split; [exact Ha | apply Hs].
Defined.

(* ===================================================================== *)
(** * [/series]: what the histogram depends on *)
(* ===================================================================== *)

Lemma filter_length_perm (A : Type) (f : A -> bool) (l1 l2 : list A) :
  Permutation l1 l2 ->
  List.length (filter f l1) = List.length (filter f l2).
Proof.
  induction 1 as [| x l1 l2 _ IH | x y l | l1 l2 l3 _ IH1 _ IH2]; cbn.
  - reflexivity.
  - destruct (f x); cbn; congruence.
  - destruct (f x), (f y); reflexivity.
  - congruence.
Qed.

Lemma filter_perm (A : Type) (f : A -> bool) (l1 l2 : list A) :
  Permutation l1 l2 -> Permutation (filter f l1) (filter f l2).
Proof.
  induction 1 as [| x l1 l2 _ IH | x y l | l1 l2 l3 _ IH1 _ IH2]; cbn.
  - constructor.
  - destruct (f x); [constructor |]; assumption.
  - destruct (f x), (f y); try reflexivity. constructor.
  - eapply perm_trans; eassumption.
Qed.

(** X19.  The histogram of [/series] depends on the cells only, not on
    their order or on the shape of the grid: two grids whose cells are a
    rearrangement of each other get the same answer. *)
Theorem series_global_rearranged (H1 H2 : ndarray2) :
  Permutation (np.flatten H1) (np.flatten H2) ->
  series_global H1 = series_global H2.
Proof.
  intros Hperm.
  assert (Hfin : Permutation (finite_cells H1) (finite_cells H2))
    by (apply filter_perm; assumption).
  assert (Hcounts : bin_counts H1 = bin_counts H2).
  { unfold bin_counts, cells_in_range. apply map_ext. intros k. f_equal.
    apply filter_length_perm, filter_perm. assumption. }
  destruct (finite_cells H1) as [| x l] eqn:E1.
  - apply Permutation_nil in Hfin.
    rewrite (series_global_empty H1 E1), (series_global_empty H2 Hfin).
    reflexivity.
  - assert (Hne2 : finite_cells H2 <> []).
    { intros E2. rewrite E2 in Hfin. apply Permutation_sym in Hfin.
      apply Permutation_nil in Hfin. discriminate Hfin. }
    rewrite (series_global_histogram H1), (series_global_histogram H2 Hne2),
      Hcounts; [reflexivity | congruence].
Qed.

Lemma series_global_rearranged_witness :
  series_global Sample.grid
  = series_global
      {| nd_ncols := 4;
         nd_rows := [[Sample.f0_4; F64.nan; Sample.f0_8; Sample.f0_2]] |}.
Proof.
  apply (series_global_rearranged Sample.grid
           {| nd_ncols := 4;
              nd_rows := [[Sample.f0_4; F64.nan; Sample.f0_8; Sample.f0_2]] |}).
  cbn.
  apply perm_trans with [Sample.f0_2; F64.nan; Sample.f0_4; Sample.f0_8].
  - do 2 apply perm_skip. apply perm_swap.
  - apply perm_trans with [Sample.f0_2; Sample.f0_4; F64.nan; Sample.f0_8].
    + apply perm_skip. apply perm_swap.
    + apply perm_trans with [Sample.f0_4; Sample.f0_2; F64.nan; Sample.f0_8].
      * apply perm_swap.
      * apply perm_skip.
        apply perm_trans with [F64.nan; Sample.f0_2; Sample.f0_8].
        -- apply perm_swap.
        -- apply perm_skip. apply perm_swap.
Defined.
